(** * py_file_watcher: a polling directory watcher

    Shallow embedding of [src/py_file_watcher.py] (class [PyFileWatcher]) and
    the properties of its construction checks, its three detection steps and
    its polling loop.

    Layout of the model:
    - the operating system and the [re] module are outside the repository;
      the first is a record of observations ([os.stat], [os.listdir]) that
      the environment may replace between two statements of the loop, the
      second an interface ([re.compile], [Pattern.match]);
    - the snapshot is Python's insertion-ordered [dict], an association list
      with the three operations the code uses;
    - callbacks are started on fresh threads and never joined: the model
      records which thread was started, in start order;
    - the methods run in a state-and-exception monad whose state survives a
      raise (threads already started stay started);
    - [watch] is a small machine stepped one statement at a time, so that
      [stop()] and filesystem changes can be interleaved anywhere. *)

From Stdlib Require Import String Ascii List ZArith Bool Arith Lia.
From Stdlib Require Import Sorted.
Import ListNotations.
Local Open Scope string_scope.
Local Open Scope list_scope.

Set Implicit Arguments.

(* ================================================================== *)
(** ** Exceptions and results *)

(** The exceptions that can leave the methods of the class:
    [WatchDirectoryError] is the repository's own class, [re.error] comes
    from the pattern compiler, [OSError] from [os.stat]/[os.listdir] and
    [KeyError] from [del d[k]]. *)
Inductive exn : Type :=
| WatchDirectoryError (msg : string)
| re_error (pattern : string)
| OSError (filename : string)
| KeyError (key : string).

Inductive result (A : Type) : Type :=
| Ok (a : A)
| Raise (e : exn).
Arguments Ok {A} a.
Arguments Raise {A} e.

(* ================================================================== *)
(** ** The filesystem as the process observes it *)

(** What the code reads from [os.stat(p)]: the file type (for
    [os.path.isdir]) and [st_mtime].  The timestamp is compared with [!=]
    only, so it is an integer count of clock ticks here. *)
Record stat_result : Type := { st_isdir : bool; st_mtime : Z }.

(** One instant of the filesystem.  [None] stands for the call raising
    [OSError].  Relative paths are resolved by the operating system, so the
    current directory is part of this observation. *)
Record filesystem : Type := {
  os_stat : string -> option stat_result;
  os_listdir : string -> option (list string)
}.

(** [os.path.exists] and [os.path.isdir] (genericpath.py): both call
    [os.stat] and turn a failure into [False]. *)
Definition os_path_exists (fs : filesystem) (p : string) : bool :=
  match os_stat fs p with Some _ => true | None => false end.

Definition os_path_isdir (fs : filesystem) (p : string) : bool :=
  match os_stat fs p with Some st => st_isdir st | None => false end.

(** [os.path.join(a, b)] (posixpath.py, two arguments). *)
Definition startswith_sep (b : string) : bool :=
  match b with
  | String c _ => Ascii.eqb c "/"
  | EmptyString => false
  end.

Fixpoint endswith_sep (a : string) : bool :=
  match a with
  | EmptyString => false
  | String c EmptyString => Ascii.eqb c "/"
  | String _ t => endswith_sep t
  end.

Definition os_path_join (a b : string) : string :=
  if startswith_sep b then b
  else if (String.eqb a "" || endswith_sep a)%bool then a ++ b
  else a ++ "/" ++ b.

(* ================================================================== *)
(** ** The [re] module *)

(** [re.match(pattern, string)] compiles the pattern (raising [re.error]
    on a syntax error) and matches it at the start of the string; the
    result is [None] or a match object, of which only the end offset is
    kept. *)
Class ReModule : Type := {
  Pattern : Type;
  re_compile : string -> option Pattern;
  Pattern_match : Pattern -> string -> option nat
}.

Definition re_match `{ReModule} (pattern s : string) : result (option nat) :=
  match re_compile pattern with
  | None => Raise (re_error pattern)
  | Some c => Ok (Pattern_match c s)
  end.

(** Truth value of what [re.match] returned: a match object is true,
    [None] is false. *)
Definition truthy (m : option nat) : bool :=
  match m with Some _ => true | None => false end.

(* ================================================================== *)
(** ** Python's [dict] with string keys *)

Definition dict : Type := list (string * Z).

Definition keys (d : dict) : list string := map fst d.

Fixpoint dict_get (k : string) (d : dict) : option Z :=
  match d with
  | [] => None
  | (k', v) :: t => if String.eqb k k' then Some v else dict_get k t
  end.

(** [k in d] *)
Definition dict_contains (k : string) (d : dict) : bool :=
  match dict_get k d with Some _ => true | None => false end.

(** [d[k] = v]: an existing key keeps its position, a new key goes last. *)
Fixpoint dict_set (k : string) (v : Z) (d : dict) : dict :=
  match d with
  | [] => [(k, v)]
  | (k', v') :: t =>
      if String.eqb k k' then (k, v) :: t else (k', v') :: dict_set k v t
  end.

(** [del d[k]], on a key that is present. *)
Fixpoint dict_remove (k : string) (d : dict) : dict :=
  match d with
  | [] => []
  | (k', v') :: t =>
      if String.eqb k k' then t else (k', v') :: dict_remove k t
  end.

(** A [dict] holds each key once. *)
Definition dict_wf (d : dict) : Prop := NoDup (keys d).

(* ================================================================== *)
(** ** State and exceptions *)

(** A callback thread that was started:
    [threading.Thread(target=cb, args=(path,)).start()]. *)
Inductive thread : Type :=
| file_modified_callback (file_path : string)
| file_created_callback (file_path : string)
| file_deleted_callback (file_path : string).

(** The mutable state a method works on: the dictionary it was handed and
    the threads started so far, oldest first. *)
Record store : Type := { files : dict; threads : list thread }.

Definition M (A : Type) : Type := store -> result A * store.

Definition ret {A} (a : A) : M A := fun s => (Ok a, s).

Definition raise {A} (e : exn) : M A := fun s => (Raise e, s).

Definition bind {A B} (m : M A) (k : A -> M B) : M B :=
  fun s =>
    match m s with
    | (Ok a, s') => k a s'
    | (Raise e, s') => (Raise e, s')
    end.

Declare Scope py_scope.
Delimit Scope py_scope with py.
Notation "x <- m ;; k" := (bind m (fun x => k))
  (at level 61, m at next level, right associativity) : py_scope.
Notation "m ;; k" := (bind m (fun _ => k))
  (at level 61, right associativity) : py_scope.
Local Open Scope py_scope.

Definition lift {A} (r : result A) : M A := fun s => (r, s).

(** [for x in xs: body(x)] over a list fixed before the loop starts. *)
Fixpoint for_each {X} (xs : list X) (body : X -> M unit) : M unit :=
  match xs with
  | [] => ret tt
  | x :: t => body x ;; for_each t body
  end.

(** [list(files.items())] *)
Definition items : M (list (string * Z)) := fun s => (Ok (files s), s).

(** [k not in files] *)
Definition not_in_files (k : string) : M bool :=
  fun s => (Ok (negb (dict_contains k (files s))), s).

(** [files[k] = v] *)
Definition setitem (k : string) (v : Z) : M unit :=
  fun s => (Ok tt, {| files := dict_set k v (files s); threads := threads s |}).

(** [del files[k]] *)
Definition delitem (k : string) : M unit :=
  fun s =>
    if dict_contains k (files s)
    then (Ok tt, {| files := dict_remove k (files s); threads := threads s |})
    else (Raise (KeyError k), s).

(** [t = threading.Thread(...); t.start()] *)
Definition start (t : thread) : M unit :=
  fun s => (Ok tt, {| files := files s; threads := threads s ++ [t] |}).

(** [os.stat(p).st_mtime] *)
Definition stat_mtime (fs : filesystem) (p : string) : M Z :=
  match os_stat fs p with
  | Some st => ret (st_mtime st)
  | None => raise (OSError p)
  end.

(** [os.listdir(d)] *)
Definition listdir (fs : filesystem) (d : string) : M (list string) :=
  match os_listdir fs d with
  | Some names => ret names
  | None => raise (OSError d)
  end.

(* ================================================================== *)
(** ** class PyFileWatcher *)

Section Watcher.
Context `{RE : ReModule}.

(** The fields of the object.  The three callbacks are opaque to the
    class; starting one is recorded as a [thread]. *)
Record PyFileWatcher : Type := {
  dir_path : string;
  file_pattern : string;
  stop_watching : bool
}.

(** [__init__]: the fields are assigned, then the three checks run. *)
Definition __init__ (fs : filesystem) (dir_path file_pattern : string)
  : result PyFileWatcher :=
  if negb (os_path_exists fs dir_path) then
    Raise (WatchDirectoryError ("Directory " ++ dir_path ++ " does not exist."))
  else if negb (os_path_isdir fs dir_path) then
    Raise (WatchDirectoryError ("Path " ++ dir_path ++ " is not a directory."))
  else
    match re_match file_pattern "" with
    | Raise e => Raise e
    | Ok m =>
        if negb (truthy m) then
          Raise (WatchDirectoryError
                   ("File pattern " ++ file_pattern ++ " is not valid."))
        else
          Ok {| dir_path := dir_path;
                file_pattern := file_pattern;
                stop_watching := false |}
    end.

(** [stop] *)
Definition stop (self : PyFileWatcher) : PyFileWatcher :=
  {| dir_path := dir_path self;
     file_pattern := file_pattern self;
     stop_watching := true |}.

(** [get_files]: a fresh dictionary keyed by [file_name]. *)
Definition get_files_body (fs : filesystem) (self : PyFileWatcher)
  (file_name : string) : M unit :=
  m <- lift (re_match (file_pattern self) file_name) ;;
  if truthy m then
    let file_path := os_path_join (dir_path self) file_name in
    mtime <- stat_mtime fs file_path ;;
    setitem file_name mtime
  else ret tt.

Definition get_files (fs : filesystem) (self : PyFileWatcher) : result dict :=
  let run :=
    (names <- listdir fs (dir_path self) ;;
     for_each names (get_files_body fs self))
      {| files := []; threads := [] |} in
  match run with
  | (Ok _, s) => Ok (files s)
  | (Raise e, _) => Raise e
  end.

(** [check_for_deleted_files] *)
Definition check_for_deleted_files_body (fs : filesystem)
  (item : string * Z) : M unit :=
  let '(file_path, last_modified) := item in
  if negb (os_path_exists fs file_path) then
    delitem file_path ;;
    start (file_deleted_callback file_path)
  else ret tt.

Definition check_for_deleted_files (fs : filesystem) : M unit :=
  its <- items ;;
  for_each its (check_for_deleted_files_body fs).

(** [check_for_modified_files] *)
Definition check_for_modified_files_body (fs : filesystem)
  (item : string * Z) : M unit :=
  let '(file_path, last_modified) := item in
  current_modified <- stat_mtime fs file_path ;;
  if negb (Z.eqb current_modified last_modified) then
    setitem file_path current_modified ;;
    start (file_modified_callback file_path)
  else ret tt.

Definition check_for_modified_files (fs : filesystem) : M unit :=
  its <- items ;;
  for_each its (check_for_modified_files_body fs).

(** [check_for_new_files]: keyed by [file_path]. *)
Definition check_for_new_files_body (fs : filesystem) (self : PyFileWatcher)
  (file_name : string) : M unit :=
  m <- lift (re_match (file_pattern self) file_name) ;;
  if truthy m then
    let file_path := os_path_join (dir_path self) file_name in
    absent <- not_in_files file_path ;;
    if absent then
      mtime <- stat_mtime fs file_path ;;
      setitem file_path mtime ;;
      start (file_created_callback file_path)
    else ret tt
  else ret tt.

Definition check_for_new_files (fs : filesystem) (self : PyFileWatcher)
  : M unit :=
  names <- listdir fs (dir_path self) ;;
  for_each names (check_for_new_files_body fs self).

(** The three detection calls of one loop iteration, on one filesystem
    observation. *)
Definition cycle (fs : filesystem) (self : PyFileWatcher) : M unit :=
  check_for_deleted_files fs ;;
  check_for_modified_files fs ;;
  check_for_new_files fs self.

End Watcher.

(* ================================================================== *)
(** ** [watch] as a machine *)

(** Where the thread that called [watch()] stands: before one of the
    statements of lines 47 to 53, or after the call has ended. *)
Inductive pc : Type :=
| at_get_files      (* files = self.get_files() *)
| at_while          (* while not self.stop_watching: *)
| at_sleep          (* time.sleep(1) *)
| at_print          (* print(".", end="", flush=True) *)
| at_deleted        (* self.check_for_deleted_files(files) *)
| at_modified       (* self.check_for_modified_files(files) *)
| at_new            (* self.check_for_new_files(files) *)
| returned
| raised (e : exn).

(** Source line of the statement about to run, [0] once [watch] has
    ended. *)
Definition line (p : pc) : nat :=
  match p with
  | at_get_files => 47
  | at_while => 48
  | at_sleep => 49
  | at_print => 50
  | at_deleted => 51
  | at_modified => 52
  | at_new => 53
  | returned | raised _ => 0
  end.

Definition ended (p : pc) : bool :=
  match p with
  | returned | raised _ => true
  | _ => false
  end.

Section Machine.
Context `{RE : ReModule}.

Record machine : Type := {
  self : PyFileWatcher;     (* the object, with its flag *)
  at_ : pc;
  mem : store;              (* the local [files] and the started threads *)
  printed : nat;            (* dots written to stdout *)
  disk : filesystem         (* the filesystem as it is now *)
}.

Definition goto (p : pc) (m : machine) : machine :=
  {| self := self m; at_ := p; mem := mem m;
     printed := printed m; disk := disk m |}.

(** Run one of the detection methods on the local [files], then continue
    at [p] or end with the exception. *)
Definition call (c : M unit) (p : pc) (m : machine) : machine :=
  match c (mem m) with
  | (Ok _, s) =>
      {| self := self m; at_ := p; mem := s;
         printed := printed m; disk := disk m |}
  | (Raise e, s) =>
      {| self := self m; at_ := raised e; mem := s;
         printed := printed m; disk := disk m |}
  end.

(** The watching thread runs its next statement. *)
Definition next (m : machine) : machine :=
  match at_ m with
  | at_get_files =>
      match get_files (disk m) (self m) with
      | Ok d =>
          {| self := self m; at_ := at_while;
             mem := {| files := d; threads := threads (mem m) |};
             printed := printed m; disk := disk m |}
      | Raise e => goto (raised e) m
      end
  | at_while =>
      if negb (stop_watching (self m)) then goto at_sleep m
      else goto returned m
  | at_sleep => goto at_print m
  | at_print =>
      {| self := self m; at_ := at_deleted; mem := mem m;
         printed := S (printed m); disk := disk m |}
  | at_deleted => call (check_for_deleted_files (disk m)) at_modified m
  | at_modified => call (check_for_modified_files (disk m)) at_new m
  | at_new => call (check_for_new_files (disk m) (self m)) at_while m
  | returned | raised _ => m
  end.

(** What can happen next: the watching thread moves, some other thread
    calls [stop()], or the filesystem changes. *)
Inductive input : Type :=
| Step
| Stop
| Fs (fs : filesystem).

Definition react (i : input) (m : machine) : machine :=
  match i with
  | Step => next m
  | Stop =>
      {| self := stop (self m); at_ := at_ m; mem := mem m;
         printed := printed m; disk := disk m |}
  | Fs fs =>
      {| self := self m; at_ := at_ m; mem := mem m;
         printed := printed m; disk := fs |}
  end.

Fixpoint run (ins : list input) (m : machine) : machine :=
  match ins with
  | [] => m
  | i :: t => run t (react i m)
  end.

(** The statements the watching thread ran, in order. *)
Fixpoint executed (ins : list input) (m : machine) : list pc :=
  match ins with
  | [] => []
  | Step :: t =>
      (if ended (at_ m) then [] else [at_ m]) ++ executed t (next m)
  | i :: t => executed t (react i m)
  end.

(** How often the statement of source line [n] ran. *)
Definition times (n : nat) (ps : list pc) : nat :=
  length (filter (fun p => Nat.eqb (line p) n) ps).

Definition steps (ins : list input) : nat :=
  length (filter (fun i => match i with Step => true | _ => false end) ins).

(** [watch()] called on a freshly built object. *)
Definition boot (w : PyFileWatcher) (fs : filesystem) : machine :=
  {| self := w; at_ := at_get_files;
     mem := {| files := []; threads := [] |};
     printed := 0; disk := fs |}.

(** [watch()]: the call enters at line 47 and proceeds as the schedule
    [ins] says. *)
Definition watch (w : PyFileWatcher) (fs : filesystem) (ins : list input)
  : machine :=
  run ins (boot w fs).

End Machine.

(** How many statements [watch] can still run once the flag is set. *)
Definition remaining (p : pc) : nat :=
  match p with
  | at_sleep => 6
  | at_print => 5
  | at_deleted => 4
  | at_modified => 3
  | at_new => 2
  | at_get_files => 2
  | at_while => 1
  | returned | raised _ => 0
  end.

(** Textual order of the loop: which statement comes right after which. *)
Inductive follows : pc -> pc -> Prop :=
| follows_get_files : follows at_get_files at_while
| follows_while : follows at_while at_sleep
| follows_sleep : follows at_sleep at_print
| follows_print : follows at_print at_deleted
| follows_deleted : follows at_deleted at_modified
| follows_modified : follows at_modified at_new
| follows_new : follows at_new at_while.

(* ================================================================== *)
(** ** A regular-expression engine for the scenarios *)

(** A backtracking matcher for the fragment of Python's pattern syntax made
    of literals, [.], [^], [$], grouping, [|], the greedy quantifiers [*],
    [+], [?] and backslash-escaped punctuation.  It instantiates
    [ReModule] where a property is evaluated on concrete patterns; the
    general theorems hold for every [ReModule].  Patterns that use other
    syntax (classes, counted repeats, lazy quantifiers, letter escapes) are
    outside the fragment and are not compiled by this instance. *)
Module MiniRe.

Inductive regex : Type :=
| Empty
| Chr (c : ascii)
| Any
| Bol
| Eol
| Seq (r1 r2 : regex)
| Alt (r1 r2 : regex)
| Star (r : regex).

Definition newline : ascii := Ascii.ascii_of_nat 10.

(** Every way [r] matches at offset [pos], where [rest] is the input from
    [pos] on, in the order a backtracking matcher finds them: the end
    offset and the input left. *)
Fixpoint ends (r : regex) (pos : nat) (rest : string) : list (nat * string) :=
  match r with
  | Empty => [(pos, rest)]
  | Chr c =>
      match rest with
      | String d t => if Ascii.eqb c d then [(S pos, t)] else []
      | EmptyString => []
      end
  | Any =>
      match rest with
      | String d t => if Ascii.eqb d newline then [] else [(S pos, t)]
      | EmptyString => []
      end
  | Bol => if Nat.eqb pos 0 then [(pos, rest)] else []
  | Eol =>
      match rest with
      | EmptyString => [(pos, rest)]
      | String d EmptyString => if Ascii.eqb d newline then [(pos, rest)] else []
      | _ => []
      end
  | Seq r1 r2 => flat_map (fun e => ends r2 (fst e) (snd e)) (ends r1 pos rest)
  | Alt r1 r2 => ends r1 pos rest ++ ends r2 pos rest
  | Star r1 =>
      (fix star (fuel pos : nat) (rest : string) : list (nat * string) :=
         match fuel with
         | O => [(pos, rest)]
         | S fuel' =>
             flat_map
               (fun e =>
                  if Nat.ltb (String.length (snd e)) (String.length rest)
                  then star fuel' (fst e) (snd e) else [])
               (ends r1 pos rest)
               ++ [(pos, rest)]
         end) (S (String.length rest)) pos rest
  end.

Definition match_ (r : regex) (s : string) : option nat :=
  match ends r 0 s with
  | e :: _ => Some (fst e)
  | [] => None
  end.

Definition is_quantifier (c : ascii) : bool :=
  (Ascii.eqb c "*" || Ascii.eqb c "+" || Ascii.eqb c "?")%bool.

Definition is_bracket (c : ascii) : bool :=
  (Ascii.eqb c "[" || Ascii.eqb c "]" || Ascii.eqb c "{" || Ascii.eqb c "}")%bool.

Definition is_alnum (c : ascii) : bool :=
  let n := Ascii.nat_of_ascii c in
  (Nat.leb 48 n && Nat.leb n 57 || Nat.leb 65 n && Nat.leb n 90
   || Nat.leb 97 n && Nat.leb n 122)%bool.

Definition starts_with_quantifier (s : string) : bool :=
  match s with
  | String c _ => is_quantifier c
  | EmptyString => false
  end.

(** Recursive descent; [None] is a syntax error.  Each function returns
    the expression it read and the input that follows it. *)
Fixpoint parse_alt (fuel : nat) (s : string) : option (regex * string) :=
  match fuel with
  | O => None
  | S f =>
      match parse_seq f s with
      | Some (r1, String "|" t) =>
          match parse_alt f t with
          | Some (r2, t') => Some (Alt r1 r2, t')
          | None => None
          end
      | other => other
      end
  end
with parse_seq (fuel : nat) (s : string) : option (regex * string) :=
  match fuel with
  | O => None
  | S f =>
      match s with
      | EmptyString => Some (Empty, s)
      | String "|" _ => Some (Empty, s)
      | String ")" _ => Some (Empty, s)
      | _ =>
          match parse_rep f s with
          | Some (r1, t) =>
              match parse_seq f t with
              | Some (r2, t') => Some (Seq r1 r2, t')
              | None => None
              end
          | None => None
          end
      end
  end
with parse_rep (fuel : nat) (s : string) : option (regex * string) :=
  match fuel with
  | O => None
  | S f =>
      match parse_atom f s with
      | Some (r, String "*" t) =>
          if starts_with_quantifier t then None else Some (Star r, t)
      | Some (r, String "+" t) =>
          if starts_with_quantifier t then None else Some (Seq r (Star r), t)
      | Some (r, String "?" t) =>
          if starts_with_quantifier t then None else Some (Alt r Empty, t)
      | other => other
      end
  end
with parse_atom (fuel : nat) (s : string) : option (regex * string) :=
  match fuel with
  | O => None
  | S f =>
      match s with
      | EmptyString => None
      | String "(" t =>
          match parse_alt f t with
          | Some (r, String ")" t') => Some (r, t')
          | _ => None
          end
      | String "\" (String d t) =>
          if is_alnum d then None else Some (Chr d, t)
      | String "\" EmptyString => None
      | String "." t => Some (Any, t)
      | String "^" t => Some (Bol, t)
      | String "$" t => Some (Eol, t)
      | String c t =>
          if (is_quantifier c || is_bracket c)%bool then None
          else Some (Chr c, t)
      end
  end.

Definition compile (p : string) : option regex :=
  match parse_alt (4 * String.length p + 8) p with
  | Some (r, EmptyString) => Some r
  | _ => None
  end.

End MiniRe.

#[export] Instance mini_re : ReModule := {|
  Pattern := MiniRe.regex;
  re_compile := MiniRe.compile;
  Pattern_match := MiniRe.match_
|}.

(* ================================================================== *)
(** ** Filesystems given by tables *)

Fixpoint assoc {V} (k : string) (l : list (string * V)) : option V :=
  match l with
  | [] => None
  | (k', v) :: t => if String.eqb k k' then Some v else assoc k t
  end.

(** A filesystem in which [os.stat] succeeds on the paths of [stats] and
    [os.listdir] on the paths of [dirs]. *)
Definition table_fs (stats : list (string * stat_result))
  (dirs : list (string * list string)) : filesystem :=
  {| os_stat := fun p => assoc p stats;
     os_listdir := fun d => assoc d dirs |}.

Definition regular (mtime : Z) : stat_result :=
  {| st_isdir := false; st_mtime := mtime |}.

Definition directory (mtime : Z) : stat_result :=
  {| st_isdir := true; st_mtime := mtime |}.

(** What [os.stat(k).st_mtime] reads now, [v] where the call would raise. *)
Definition current_mtime (fs : filesystem) (k : string) (v : Z) : Z :=
  match os_stat fs k with Some st => st_mtime st | None => v end.

Definition refreshed (fs : filesystem) (item : string * Z) : string * Z :=
  (fst item, current_mtime fs (fst item) (snd item)).

Definition changed (fs : filesystem) (item : string * Z) : bool :=
  negb (Z.eqb (current_mtime fs (fst item) (snd item)) (snd item)).

Definition present (fs : filesystem) (item : string * Z) : bool :=
  os_path_exists fs (fst item).

Definition absent (fs : filesystem) (item : string * Z) : bool :=
  negb (os_path_exists fs (fst item)).

(** Every entry holds the timestamp its path has on [fs]. *)
Definition up_to_date (fs : filesystem) (d : dict) : Prop :=
  forall k v, dict_get k d = Some v ->
    exists st, os_stat fs k = Some st /\ st_mtime st = v.


(** The path a callback thread was started with. *)
Definition path_of (t : thread) : string :=
  match t with
  | file_modified_callback p => p
  | file_created_callback p => p
  | file_deleted_callback p => p
  end.

(** [name] is an entry name that the pattern matches at its start. *)
Definition matched `{ReModule} (pattern name : string) : Prop :=
  exists e, re_match pattern name = Ok (Some e).



(** Decision procedure for [dict_wf]. *)
Fixpoint distinct (ks : list string) : bool :=
  match ks with
  | [] => true
  | k :: t => negb (existsb (String.eqb k) t) && distinct t
  end.

(* ================================================================== *)
(** ** Scenarios *)

Module Scenario.

(** The watched directory [/tmp/w] holds [data_1.txt] and [other.log];
    the process runs in some other directory, so a bare entry name does
    not resolve. *)
Definition tmp_w : filesystem :=
  table_fs
    [("/tmp/w", directory 100);
     ("/tmp/w/data_1.txt", regular 5);
     ("/tmp/w/other.log", regular 6)]
    [("/tmp/w", ["data_1.txt"; "other.log"])].

(** [data_1.txt] was written again. *)
Definition tmp_w_touched : filesystem :=
  table_fs
    [("/tmp/w", directory 100);
     ("/tmp/w/data_1.txt", regular 9);
     ("/tmp/w/other.log", regular 6)]
    [("/tmp/w", ["data_1.txt"; "other.log"])].

(** [data_1.txt] was restored from a backup with an older timestamp. *)
Definition tmp_w_older : filesystem :=
  table_fs
    [("/tmp/w", directory 100);
     ("/tmp/w/data_1.txt", regular 2);
     ("/tmp/w/other.log", regular 6)]
    [("/tmp/w", ["data_1.txt"; "other.log"])].

(** [data_1.txt] was removed. *)
Definition tmp_w_removed : filesystem :=
  table_fs
    [("/tmp/w", directory 101);
     ("/tmp/w/other.log", regular 6)]
    [("/tmp/w", ["other.log"])].

(** The process watches its own current directory, given as [.]: the
    entry [data_1.txt] is reachable as [data_1.txt] and as
    [./data_1.txt]. *)
Definition cwd : filesystem :=
  table_fs
    [(".", directory 100);
     ("./data_1.txt", regular 5);
     ("data_1.txt", regular 5)]
    [(".", ["data_1.txt"])].

(** The watched directory itself was removed. *)
Definition tmp_w_gone : filesystem := table_fs [] [].

(** Watchers as [__init__] leaves them. *)
Definition watcher (dir pattern : string) : PyFileWatcher :=
  {| dir_path := dir; file_pattern := pattern; stop_watching := false |}.

Definition empty : store := {| files := []; threads := [] |}.

(** The six statements of one loop iteration: the test of the flag, the
    sleep, the print and the three detection calls. *)
Definition iteration : list input := [Step; Step; Step; Step; Step; Step].

(** [watch()] from its first statement through [n] whole iterations. *)
Definition polls (n : nat) : list input :=
  Step :: concat (repeat iteration n).

End Scenario.

(* ================================================================== *)
(** * Properties *)

Unset Implicit Arguments.

(** ** Dictionaries *)

Lemma dict_get_In (k : string) (d : dict) :
  dict_get k d <> None <-> In k (keys d).
Proof.
  induction d as [|[k' v] t IH]; simpl.
  - split; [congruence | tauto].
  - destruct (String.eqb_spec k k') as [->|Hne].
    + split; [auto | congruence].
    + rewrite IH. split; [auto | intros [H|H]; [congruence | exact H]].
Qed.

Lemma dict_contains_In (k : string) (d : dict) :
  dict_contains k d = true <-> In k (keys d).
Proof.
  rewrite <- dict_get_In. unfold dict_contains.
  destruct (dict_get k d); split; congruence.
Qed.

Lemma dict_contains_false (k : string) (d : dict) :
  dict_contains k d = false <-> ~ In k (keys d).
Proof.
  rewrite <- dict_contains_In. destruct (dict_contains k d); split; congruence.
Qed.

Lemma dict_get_set_same (k : string) (v : Z) (d : dict) :
  dict_get k (dict_set k v d) = Some v.
Proof.
  induction d as [|[k' v'] t IH]; simpl.
  - now rewrite String.eqb_refl.
  - destruct (String.eqb_spec k k') as [->|Hne]; simpl.
    + now rewrite String.eqb_refl.
    + destruct (String.eqb_spec k k'); [contradiction | exact IH].
Qed.

Lemma dict_get_set_other (k k' : string) (v : Z) (d : dict) :
  k <> k' -> dict_get k' (dict_set k v d) = dict_get k' d.
Proof.
  intros Hne. induction d as [|[k0 v0] t IH]; simpl.
  - destruct (String.eqb_spec k' k); [congruence | reflexivity].
  - destruct (String.eqb_spec k k0) as [->|Hk]; simpl.
    + destruct (String.eqb_spec k' k0); [congruence | reflexivity].
    + destruct (String.eqb_spec k' k0); [reflexivity | exact IH].
Qed.

Lemma keys_set_new (k : string) (v : Z) (d : dict) :
  ~ In k (keys d) -> dict_set k v d = d ++ [(k, v)].
Proof.
  induction d as [|[k' v'] t IH]; simpl; intros Hn; [reflexivity|].
  destruct (String.eqb_spec k k') as [->|Hne]; [tauto|].
  rewrite IH; [reflexivity | tauto].
Qed.

Lemma keys_app (a b : dict) : keys (a ++ b) = keys a ++ keys b.
Proof. unfold keys. apply map_app. Qed.

(** Overwriting the entry that sits right after a prefix without that key. *)
Lemma dict_set_middle (k : string) (v v' : Z) (pre post : dict) :
  ~ In k (keys pre) ->
  dict_set k v' (pre ++ (k, v) :: post) = pre ++ (k, v') :: post.
Proof.
  induction pre as [|[k0 v0] t IH]; simpl; intros Hn.
  - now rewrite String.eqb_refl.
  - destruct (String.eqb_spec k k0) as [->|Hne]; [tauto|].
    rewrite IH; [reflexivity | tauto].
Qed.

Lemma dict_remove_middle (k : string) (v : Z) (pre post : dict) :
  ~ In k (keys pre) ->
  dict_remove k (pre ++ (k, v) :: post) = pre ++ post.
Proof.
  induction pre as [|[k0 v0] t IH]; simpl; intros Hn.
  - now rewrite String.eqb_refl.
  - destruct (String.eqb_spec k k0) as [->|Hne]; [tauto|].
    rewrite IH; [reflexivity | tauto].
Qed.

Lemma dict_get_app_skip (k : string) (a b : dict) :
  ~ In k (keys a) -> dict_get k (a ++ b) = dict_get k b.
Proof.
  induction a as [|[k0 v0] t IH]; simpl; intros Hn; [reflexivity|].
  destruct (String.eqb_spec k k0) as [->|Hne]; [tauto|].
  apply IH. tauto.
Qed.

Lemma dict_wf_set (k : string) (v : Z) (d : dict) :
  dict_wf d -> dict_wf (dict_set k v d).
Proof.
  unfold dict_wf. induction d as [|[k' v'] t IH]; simpl; intros Hwf.
  - constructor; [simpl; tauto | constructor].
  - inversion Hwf as [|? ? Hnin Hnd]; subst.
    destruct (String.eqb_spec k k') as [->|Hne]; simpl.
    + constructor; assumption.
    + constructor; [|auto].
      intros Hin. apply Hnin.
      apply dict_get_In. apply dict_get_In in Hin.
      rewrite dict_get_set_other in Hin; auto.
Qed.

Lemma keys_refreshed (fs : filesystem) (d : dict) :
  keys (map (refreshed fs) d) = keys d.
Proof. unfold keys. rewrite map_map. reflexivity. Qed.

Lemma keys_filter_incl (f : string * Z -> bool) (d : dict) (k : string) :
  In k (keys (filter f d)) -> In k (keys d).
Proof.
  unfold keys. rewrite !in_map_iff.
  intros [x [Hx Hin]]. exists x. apply filter_In in Hin. tauto.
Qed.

Lemma dict_wf_filter (f : string * Z -> bool) (d : dict) :
  dict_wf d -> dict_wf (filter f d).
Proof.
  unfold dict_wf. induction d as [|[k v] t IH]; simpl; intros Hwf; [constructor|].
  inversion Hwf as [|? ? Hnin Hnd]; subst.
  destruct (f (k, v)); simpl; [|auto].
  constructor; [|auto]. intros Hin. apply Hnin.
  eapply keys_filter_incl; eauto.
Qed.

(** ** The loop combinator *)

Lemma bind_ok {A B} (m : M A) (k : A -> M B) (s s' : store) (a : A) :
  m s = (Ok a, s') -> bind m k s = k a s'.
Proof. unfold bind. now intros ->. Qed.

Lemma bind_raise {A B} (m : M A) (k : A -> M B) (s s' : store) (e : exn) :
  m s = (Raise e, s') -> bind m k s = (Raise e, s').
Proof. unfold bind. now intros ->. Qed.

(** A property of the state that every pass of the body keeps, whatever
    its outcome, holds when the loop is left. *)
Lemma for_each_keeps {X} (P : store -> Prop) (body : X -> M unit) (xs : list X) :
  (forall x s, In x xs -> P s -> P (snd (body x s))) ->
  forall s, P s -> P (snd (for_each xs body s)).
Proof.
  induction xs as [|x t IH]; simpl; intros Hb s Hs; [exact Hs|].
  unfold bind. specialize (Hb x s (or_introl eq_refl) Hs) as Hx.
  destruct (body x s) as [[[]|e] s1]; simpl in *; [|exact Hx].
  apply IH; auto.
Qed.

(** Passes that do nothing make a loop that does nothing. *)
Lemma for_each_skip {X} (body : X -> M unit) (xs : list X) (s : store) :
  (forall x, In x xs -> body x s = (Ok tt, s)) ->
  for_each xs body s = (Ok tt, s).
Proof.
  induction xs as [|x t IH]; simpl; intros Hb; [reflexivity|].
  unfold bind. rewrite Hb by auto. apply IH. auto.
Qed.

(** A loop that completed ran every pass to completion, and what a pass
    established and later passes keep holds at the end. *)
Lemma for_each_ok {X} (Q : X -> store -> Prop) (body : X -> M unit)
  (xs : list X) :
  (forall x s s1, body x s = (Ok tt, s1) -> Q x s1) ->
  (forall x y s s1, Q x s -> body y s = (Ok tt, s1) -> Q x s1) ->
  forall s s', for_each xs body s = (Ok tt, s') ->
  forall x, In x xs -> Q x s'.
Proof.
  intros Hdo Hkeep.
  induction xs as [|y t IH]; simpl; intros s s' Hrun x Hin; [contradiction|].
  unfold bind in Hrun.
  destruct (body y s) as [[[]|e] s1] eqn:Hy; [|discriminate].
  destruct Hin as [->|Hin]; [|exact (IH s1 s' Hrun x Hin)].
  apply Hdo in Hy. clear IH.
  revert s1 Hy Hrun. induction t as [|z t IHt]; simpl; intros s1 Hq Hrun.
  - inversion Hrun; subst; exact Hq.
  - unfold bind in Hrun.
    destruct (body z s1) as [[[]|e] s2] eqn:Hz; [|discriminate].
    apply (IHt s2); [exact (Hkeep x z s1 s2 Hq Hz) | exact Hrun].
Qed.

(** A loop whose passes always complete completes. *)
Lemma for_each_total {X} (body : X -> M unit) (xs : list X) :
  (forall x s, In x xs -> exists s1, body x s = (Ok tt, s1)) ->
  forall s, exists s', for_each xs body s = (Ok tt, s').
Proof.
  induction xs as [|x t IH]; simpl; intros Hb s; [eexists; reflexivity|].
  destruct (Hb x s (or_introl eq_refl)) as [s1 H1].
  unfold bind. rewrite H1. apply IH. auto.
Qed.

(** ** The deletion and modification passes in closed form *)

Lemma NoDup_keys_mid (pre post : dict) (k : string) (v : Z) :
  NoDup (keys (pre ++ (k, v) :: post)) ->
  ~ In k (keys pre) /\ ~ In k (keys post) /\ NoDup (keys (pre ++ post)).
Proof.
  rewrite !keys_app. simpl. intros H.
  pose proof (NoDup_remove_1 _ _ _ H) as H1.
  pose proof (NoDup_remove_2 _ _ _ H) as H2.
  rewrite in_app_iff in H2. tauto.
Qed.

Lemma NoDup_keys_shift (pre post : dict) (k : string) (v v' : Z) :
  NoDup (keys (pre ++ (k, v) :: post)) ->
  NoDup (keys ((pre ++ [(k, v')]) ++ post)).
Proof.
  rewrite <- app_assoc. simpl. rewrite !keys_app. simpl. auto.
Qed.

(** [check_for_deleted_files] keeps the entries whose path exists, in
    their order, and starts one deleted-callback thread per other entry. *)
Lemma deleted_loop (fs : filesystem) (l pre : dict) (t : list thread) :
  NoDup (keys (pre ++ l)) ->
  for_each l (check_for_deleted_files_body fs)
    {| files := pre ++ l; threads := t |}
  = (Ok tt,
     {| files := pre ++ filter (present fs) l;
        threads := t ++ map file_deleted_callback (keys (filter (absent fs) l)) |}).
Proof.
  revert pre t. induction l as [|[k v] l IH]; intros pre t Hnd.
  - cbn [for_each filter keys map]. unfold ret. now rewrite !app_nil_r.
  - destruct (NoDup_keys_mid _ _ _ _ Hnd) as (Hpre & Hpost & Hrest).
    cbn [for_each check_for_deleted_files_body filter].
    unfold present, absent. cbn [fst].
    destruct (os_path_exists fs k) eqn:Hex; cbn [negb].
    + unfold bind, ret.
      replace (pre ++ (k, v) :: l) with ((pre ++ [(k, v)]) ++ l)
        by (rewrite <- app_assoc; reflexivity).
      rewrite IH by (eapply NoDup_keys_shift; eauto).
      now rewrite <- app_assoc.
    + unfold bind, delitem, start. cbn [files threads].
      assert (Hc : dict_contains k (pre ++ (k, v) :: l) = true).
      { apply dict_contains_In. rewrite keys_app. apply in_or_app.
        right. now left. }
      rewrite Hc, dict_remove_middle by assumption.
      cbv beta iota. cbn [files threads].
      rewrite IH by assumption.
      cbn [keys map]. now rewrite <- app_assoc.
Qed.

Lemma check_for_deleted_files_spec (fs : filesystem) (s : store) :
  dict_wf (files s) ->
  check_for_deleted_files fs s
  = (Ok tt,
     {| files := filter (present fs) (files s);
        threads := threads s
                   ++ map file_deleted_callback
                        (keys (filter (absent fs) (files s))) |}).
Proof.
  intros Hwf. unfold check_for_deleted_files, bind, items.
  destruct s as [d t]. cbn [files threads] in *.
  exact (deleted_loop fs d [] t Hwf).
Qed.

(** [check_for_modified_files], when every path can be read: each entry
    takes the current timestamp, in place, and one modified-callback
    thread is started per entry whose timestamp differed. *)
Lemma modified_loop (fs : filesystem) (l pre : dict) (t : list thread) :
  NoDup (keys (pre ++ l)) ->
  (forall k, In k (keys l) -> os_stat fs k <> None) ->
  for_each l (check_for_modified_files_body fs)
    {| files := pre ++ l; threads := t |}
  = (Ok tt,
     {| files := pre ++ map (refreshed fs) l;
        threads := t ++ map file_modified_callback (keys (filter (changed fs) l)) |}).
Proof.
  revert pre t. induction l as [|[k v] l IH]; intros pre t Hnd Hread.
  - cbn [for_each filter keys map]. unfold ret. now rewrite !app_nil_r.
  - destruct (NoDup_keys_mid _ _ _ _ Hnd) as (Hpre & Hpost & Hrest).
    cbn [for_each check_for_modified_files_body filter map].
    unfold refreshed at 1, changed at 1, current_mtime, stat_mtime.
    cbn [fst snd].
    destruct (os_stat fs k) as [st|] eqn:Hst;
      [|exfalso; apply (Hread k); [now left | exact Hst]].
    assert (Hread' : forall k', In k' (keys l) -> os_stat fs k' <> None)
      by (intros k' Hk'; apply Hread; now right).
    unfold bind at 1 2. unfold ret at 1.
    destruct (Z.eqb_spec (st_mtime st) v) as [Heq|Hne]; cbn [negb].
    + unfold ret. subst v.
      replace (pre ++ (k, st_mtime st) :: l)
        with ((pre ++ [(k, st_mtime st)]) ++ l) by (rewrite <- app_assoc; reflexivity).
      rewrite IH by (try eapply NoDup_keys_shift; eauto).
      now rewrite <- app_assoc.
    + unfold bind, setitem, start. cbn [files threads].
      rewrite dict_set_middle by assumption.
      replace (pre ++ (k, st_mtime st) :: l)
        with ((pre ++ [(k, st_mtime st)]) ++ l) by (rewrite <- app_assoc; reflexivity).
      rewrite IH by (try eapply NoDup_keys_shift; eauto).
      cbn [keys map fst]. now rewrite <- !app_assoc.
Qed.

Lemma check_for_modified_files_spec (fs : filesystem) (s : store) :
  dict_wf (files s) ->
  (forall k, In k (keys (files s)) -> os_stat fs k <> None) ->
  check_for_modified_files fs s
  = (Ok tt,
     {| files := map (refreshed fs) (files s);
        threads := threads s
                   ++ map file_modified_callback
                        (keys (filter (changed fs) (files s))) |}).
Proof.
  intros Hwf Hread. unfold check_for_modified_files, bind, items.
  destruct s as [d t]. cbn [files threads] in *.
  exact (modified_loop fs d [] t Hwf Hread).
Qed.

(** The first path that cannot be read ends the pass with [OSError]. *)
Lemma modified_loop_raises (fs : filesystem) (l : dict) (s : store) :
  (exists k, In k (keys l) /\ os_stat fs k = None) ->
  exists k0 s',
    In k0 (keys l) /\ os_stat fs k0 = None /\
    for_each l (check_for_modified_files_body fs) s = (Raise (OSError k0), s').
Proof.
  revert s. induction l as [|[k v] l IH]; intros s [k1 [Hin Hnone]].
  - contradiction.
  - cbn [for_each check_for_modified_files_body].
    unfold bind at 1 2. unfold stat_mtime.
    destruct (os_stat fs k) as [st|] eqn:Hst.
    + assert (Hl : exists k, In k (keys l) /\ os_stat fs k = None).
      { destruct Hin as [Hk|Hk]; [simpl in Hk; congruence | eauto]. }
      unfold ret at 1.
      destruct (negb (st_mtime st =? v)%Z).
      * unfold bind at 1. unfold setitem, start. cbn [files threads].
        match goal with
        | |- context [for_each l _ ?S] =>
            destruct (IH S Hl) as (k0 & s' & ? & ? & Hrun)
        end.
        exists k0, s'. repeat split; [now right | assumption | exact Hrun].
      * unfold ret at 1.
        destruct (IH s Hl) as (k0 & s' & ? & ? & Hrun).
        exists k0, s'. repeat split; [now right | assumption | exact Hrun].
    + exists k, s. repeat split; [now left | exact Hst].
Qed.

Lemma dict_get_refreshed (fs : filesystem) (k : string) (d : dict) :
  dict_get k (map (refreshed fs) d)
  = match dict_get k d with
    | Some v => Some (current_mtime fs k v)
    | None => None
    end.
Proof.
  induction d as [|[k' v] t IH]; simpl; [reflexivity|].
  destruct (String.eqb_spec k k') as [->|Hne]; [reflexivity | exact IH].
Qed.

Lemma dict_get_entry (k : string) (v : Z) (d : dict) :
  dict_wf d -> (In (k, v) d <-> dict_get k d = Some v).
Proof.
  unfold dict_wf. induction d as [|[k' v'] t IH]; simpl; intros Hwf.
  - split; [contradiction | discriminate].
  - inversion Hwf as [|? ? Hnin Hnd]; subst.
    destruct (String.eqb_spec k k') as [->|Hne].
    + split.
      * intros [H|H]; [congruence|].
        exfalso. apply Hnin. change k' with (fst (k', v)). now apply in_map.
      * intros H. left. congruence.
    + rewrite <- (IH Hnd). split; [intros [H|H]; [congruence | exact H] | auto].
Qed.

Lemma In_keys_filter (f : string * Z -> bool) (k : string) (d : dict) :
  In k (keys (filter f d)) <-> exists v, In (k, v) d /\ f (k, v) = true.
Proof.
  unfold keys. rewrite in_map_iff. split.
  - intros [[k' v] [Hk Hin]]. simpl in Hk. subst k'.
    apply filter_In in Hin. eauto.
  - intros [v [Hin Hf]]. exists (k, v). split; [reflexivity|].
    apply filter_In. auto.
Qed.

Lemma NoDup_started (cb : string -> thread) (ks : list string) :
  (forall a b, cb a = cb b -> a = b) -> NoDup ks -> NoDup (map cb ks).
Proof.
  intros Hinj. induction 1 as [|k ks Hnin Hnd IH]; simpl; constructor; auto.
  rewrite in_map_iff. intros [k' [Heq Hin]]. apply Hinj in Heq. congruence.
Qed.

Section StepProperties.
Context `{RE : ReModule}.

(** ** Modification detection *)

(** C6: on a snapshot whose paths all exist (what the deletion step leaves
    on an unchanged filesystem), the modification step completes; it
    starts threads for [file_modified_callback] only, at most one per
    path; for a path stored with timestamp [last] and read with timestamp
    [st_mtime st], the entry afterwards holds [st_mtime st] and the thread
    for that path was started exactly when the two differ, a smaller
    current timestamp included; with equal timestamps the entry is as it
    was and no thread was started. *)
Theorem check_for_modified_files_fires_on_inequality
  (fs : filesystem) (s : store) :
  dict_wf (files s) ->
  (forall k, In k (keys (files s)) -> os_path_exists fs k = true) ->
  exists s' started,
    check_for_modified_files fs s = (Ok tt, s') /\
    threads s' = threads s ++ started /\
    NoDup started /\
    (forall t, In t started ->
       exists k, t = file_modified_callback k /\ In k (keys (files s))) /\
    keys (files s') = keys (files s) /\
    forall k last, dict_get k (files s) = Some last ->
      exists st,
        os_stat fs k = Some st /\
        dict_get k (files s') = Some (st_mtime st) /\
        (In (file_modified_callback k) started <-> st_mtime st <> last) /\
        ((st_mtime st < last)%Z -> In (file_modified_callback k) started) /\
        (st_mtime st = last ->
           dict_get k (files s') = Some last /\
           ~ In (file_modified_callback k) started).
Proof.
  intros Hwf Hex.
  assert (Hread : forall k, In k (keys (files s)) -> os_stat fs k <> None).
  { intros k Hk. specialize (Hex k Hk). unfold os_path_exists in Hex.
    destruct (os_stat fs k); [discriminate | discriminate]. }
  eexists. exists (map file_modified_callback (keys (filter (changed fs) (files s)))).
  split; [apply check_for_modified_files_spec; assumption|].
  cbn [files threads].
  assert (Hfire : forall k last st,
             dict_get k (files s) = Some last -> os_stat fs k = Some st ->
             (In (file_modified_callback k)
                (map file_modified_callback (keys (filter (changed fs) (files s))))
              <-> st_mtime st <> last)).
  { intros k last st Hget Hst. rewrite in_map_iff. split.
    - intros [k' [Heq Hin]]. injection Heq as ->.
      apply In_keys_filter in Hin. destruct Hin as [v [Hin Hch]].
      apply (dict_get_entry k v _ Hwf) in Hin.
      assert (v = last) by congruence. subst v.
      unfold changed, current_mtime in Hch. cbn [fst snd] in Hch.
      rewrite Hst in Hch. apply negb_true_iff, Z.eqb_neq in Hch. exact Hch.
    - intros Hne. exists k. split; [reflexivity|].
      apply In_keys_filter. exists last. split.
      + now apply dict_get_entry.
      + unfold changed, current_mtime. cbn [fst snd]. rewrite Hst.
        apply negb_true_iff, Z.eqb_neq. exact Hne. }
  split; [reflexivity|]. split; [|split; [|split]].
  - apply NoDup_started; [intros a b H; now injection H|].
    apply (dict_wf_filter (changed fs) _ Hwf).
  - intros t Ht. apply in_map_iff in Ht. destruct Ht as [k [<- Hk]].
    exists k. split; [reflexivity|]. eapply keys_filter_incl; eauto.
  - apply keys_refreshed.
  - intros k last Hget.
    assert (Hk : In k (keys (files s))) by (apply dict_get_In; congruence).
    destruct (os_stat fs k) as [st|] eqn:Hst; [|now apply Hread in Hk].
    exists st.
    assert (Hnew : dict_get k (map (refreshed fs) (files s)) = Some (st_mtime st)).
    { rewrite dict_get_refreshed, Hget. unfold current_mtime. now rewrite Hst. }
    pose proof (Hfire k last st Hget Hst) as Hiff.
    split; [reflexivity|]. split; [exact Hnew|]. split; [exact Hiff|].
    split.
    + intros Hlt. apply Hiff. lia.
    + intros Heq. split.
      * rewrite Hnew. now rewrite Heq.
      * intros Hin. apply Hiff in Hin. contradiction.
Qed.

(** ** Creation detection *)

Lemma check_for_new_files_body_keeps (fs : filesystem) (self : PyFileWatcher)
  (k : string) (v : Z) (file_name : string) (s : store) :
  dict_get k (files s) = Some v ->
  dict_get k (files (snd (check_for_new_files_body fs self file_name s)))
  = Some v.
Proof.
  intros Hget. unfold check_for_new_files_body, bind, lift.
  destruct (re_match (file_pattern self) file_name) as [m|e]; [|exact Hget].
  destruct (truthy m); [|exact Hget].
  cbv zeta. unfold not_in_files.
  destruct (dict_contains (os_path_join (dir_path self) file_name) (files s))
    eqn:Hc; cbn [negb]; [exact Hget|].
  unfold stat_mtime.
  destruct (os_stat fs (os_path_join (dir_path self) file_name));
    [|exact Hget].
  unfold ret, setitem, start. cbn [snd files].
  rewrite dict_get_set_other; [exact Hget|].
  intros Heq. rewrite Heq in Hc.
  unfold dict_contains in Hc. rewrite Hget in Hc. discriminate.
Qed.

(** C9: whatever the filesystem shows and however the creation step ends,
    an entry that was in the snapshot before the step has the same
    timestamp after it. *)
Theorem check_for_new_files_keeps_known_entries
  (fs : filesystem) (self : PyFileWatcher) (s : store) (k : string) (v : Z) :
  dict_get k (files s) = Some v ->
  dict_get k (files (snd (check_for_new_files fs self s))) = Some v.
Proof.
  intros Hget. unfold check_for_new_files, bind, listdir.
  destruct (os_listdir fs (dir_path self)) as [names|]; [|exact Hget].
  unfold ret.
  apply (for_each_keeps (fun s => dict_get k (files s) = Some v)); [|exact Hget].
  intros x s0 _ H0. now apply check_for_new_files_body_keeps.
Qed.

End StepProperties.

(** ** One cycle on an unchanging filesystem *)

Lemma distinct_NoDup (ks : list string) : distinct ks = true -> NoDup ks.
Proof.
  induction ks as [|k t IH]; simpl; intros H; [constructor|].
  apply andb_true_iff in H. destruct H as [Hk Ht].
  constructor; [|auto].
  intros Hin. apply negb_true_iff in Hk.
  assert (existsb (String.eqb k) t = true); [|congruence].
  apply existsb_exists. exists k. split; [exact Hin | apply String.eqb_refl].
Qed.

Lemma filter_all {A} (f : A -> bool) (l : list A) :
  (forall x, In x l -> f x = true) -> filter f l = l.
Proof.
  induction l as [|a t IH]; simpl; intros H; [reflexivity|].
  rewrite H by auto. f_equal. auto.
Qed.

Lemma filter_none {A} (f : A -> bool) (l : list A) :
  (forall x, In x l -> f x = false) -> filter f l = [].
Proof.
  induction l as [|a t IH]; simpl; intros H; [reflexivity|].
  rewrite H by auto. auto.
Qed.

Lemma map_fixed {A} (f : A -> A) (l : list A) :
  (forall x, In x l -> f x = x) -> map f l = l.
Proof.
  induction l as [|a t IH]; simpl; intros H; [reflexivity|].
  rewrite H by auto. f_equal. auto.
Qed.

Lemma dict_contains_set (k k' : string) (v : Z) (d : dict) :
  dict_contains k d = true -> dict_contains k (dict_set k' v d) = true.
Proof.
  unfold dict_contains. intros H.
  destruct (String.eqb_spec k' k) as [->|Hne].
  - now rewrite dict_get_set_same.
  - now rewrite dict_get_set_other.
Qed.

Lemma up_to_date_set (fs : filesystem) (d : dict) (k : string)
  (st : stat_result) :
  os_stat fs k = Some st -> up_to_date fs d ->
  up_to_date fs (dict_set k (st_mtime st) d).
Proof.
  intros Hst Hd k' v'. destruct (String.eqb_spec k k') as [<-|Hne].
  - rewrite dict_get_set_same. intros [= <-]. eauto.
  - rewrite dict_get_set_other by assumption. apply Hd.
Qed.

(** After the deletion and modification passes on one filesystem, the
    snapshot is well formed and up to date. *)
Lemma up_to_date_refreshed (fs : filesystem) (d : dict) :
  up_to_date fs (map (refreshed fs) (filter (present fs) d)).
Proof.
  intros k v. rewrite dict_get_refreshed.
  destruct (dict_get k (filter (present fs) d)) as [v0|] eqn:Hget;
    [|discriminate].
  intros [= <-].
  assert (Hk : In k (keys (filter (present fs) d)))
    by (apply dict_get_In; congruence).
  apply In_keys_filter in Hk. destruct Hk as [v1 [_ Hp]].
  unfold present, os_path_exists in Hp. cbn [fst] in Hp.
  unfold current_mtime.
  destruct (os_stat fs k) as [st|]; [eauto | discriminate].
Qed.

Section CycleProperties.
Context `{RE : ReModule}.

(** One pass of the creation loop, by cases. *)
Lemma check_for_new_files_body_eq (fs : filesystem) (self : PyFileWatcher)
  (file_name : string) (s : store) :
  check_for_new_files_body fs self file_name s
  = let file_path := os_path_join (dir_path self) file_name in
    match re_match (file_pattern self) file_name with
    | Raise e => (Raise e, s)
    | Ok m =>
        if truthy m then
          if dict_contains file_path (files s) then (Ok tt, s)
          else
            match os_stat fs file_path with
            | Some st =>
                (Ok tt,
                 {| files := dict_set file_path (st_mtime st) (files s);
                    threads := threads s ++ [file_created_callback file_path] |})
            | None => (Raise (OSError file_path), s)
            end
        else (Ok tt, s)
    end.
Proof.
  unfold check_for_new_files_body, bind, lift. cbv zeta.
  destruct (re_match (file_pattern self) file_name) as [m|e]; [|reflexivity].
  destruct (truthy m); [|reflexivity].
  unfold not_in_files, stat_mtime.
  destruct (dict_contains _ (files s)); cbn [negb]; [reflexivity|].
  destruct (os_stat fs _); reflexivity.
Qed.

Lemma check_for_new_files_body_inv (fs : filesystem) (self : PyFileWatcher)
  (file_name : string) (s : store) :
  dict_wf (files s) /\ up_to_date fs (files s) ->
  dict_wf (files (snd (check_for_new_files_body fs self file_name s))) /\
  up_to_date fs (files (snd (check_for_new_files_body fs self file_name s))).
Proof.
  intros [Hwf Hup]. rewrite check_for_new_files_body_eq. cbv zeta.
  destruct (re_match _ _) as [m|e]; [|now split].
  destruct (truthy m); [|now split].
  destruct (dict_contains _ _); [now split|].
  destruct (os_stat fs _) as [st|] eqn:Hst; [|now split].
  cbn [snd files]. split; [now apply dict_wf_set | now apply up_to_date_set].
Qed.

Lemma check_for_new_files_body_done (fs : filesystem) (self : PyFileWatcher)
  (file_name : string) (s s1 : store) :
  check_for_new_files_body fs self file_name s = (Ok tt, s1) ->
  exists m,
    re_match (file_pattern self) file_name = Ok m /\
    (truthy m = true ->
     dict_contains (os_path_join (dir_path self) file_name) (files s1) = true).
Proof.
  rewrite check_for_new_files_body_eq. cbv zeta.
  destruct (re_match _ _) as [m|e]; [|discriminate].
  intros H. exists m. split; [reflexivity|]. intros Ht. rewrite Ht in H.
  destruct (dict_contains _ (files s)) eqn:Hc.
  - injection H as <-. exact Hc.
  - destruct (os_stat fs _) as [st|]; [|discriminate].
    injection H as <-. cbn [files]. unfold dict_contains.
    now rewrite dict_get_set_same.
Qed.

Lemma check_for_new_files_body_grows (fs : filesystem) (self : PyFileWatcher)
  (file_name k : string) (s : store) :
  dict_contains k (files s) = true ->
  dict_contains k (files (snd (check_for_new_files_body fs self file_name s)))
  = true.
Proof.
  intros Hk. rewrite check_for_new_files_body_eq. cbv zeta.
  destruct (re_match _ _) as [m|e]; [|exact Hk].
  destruct (truthy m); [|exact Hk].
  destruct (dict_contains (os_path_join (dir_path self) file_name) (files s));
    [exact Hk|].
  destruct (os_stat fs _) as [st|]; [|exact Hk].
  cbn [snd files]. now apply dict_contains_set.
Qed.

(** What a completed creation step leaves: every listed name was tried
    against the pattern without error, and the joined path of every name
    that matched is a key. *)
Lemma check_for_new_files_done (fs : filesystem) (self : PyFileWatcher)
  (s s1 : store) :
  check_for_new_files fs self s = (Ok tt, s1) ->
  exists names,
    os_listdir fs (dir_path self) = Some names /\
    forall n, In n names ->
      exists m,
        re_match (file_pattern self) n = Ok m /\
        (truthy m = true ->
         dict_contains (os_path_join (dir_path self) n) (files s1) = true).
Proof.
  unfold check_for_new_files, bind, listdir.
  destruct (os_listdir fs (dir_path self)) as [names|]; [|discriminate].
  unfold ret. intros Hrun. exists names. split; [reflexivity|].
  apply (for_each_ok
           (fun n s' =>
              exists m,
                re_match (file_pattern self) n = Ok m /\
                (truthy m = true ->
                 dict_contains (os_path_join (dir_path self) n) (files s') = true))
           (check_for_new_files_body fs self) names) with (s := s);
    [ | | exact Hrun].
  - intros x s0 s2. apply check_for_new_files_body_done.
  - intros x y s0 s2 [m [Hm Hc]] Hy. exists m. split; [exact Hm|].
    intros Ht. specialize (Hc Ht).
    pose proof (check_for_new_files_body_grows fs self y _ s0 Hc) as Hg.
    now rewrite Hy in Hg.
Qed.

Lemma check_for_new_files_inv (fs : filesystem) (self : PyFileWatcher)
  (s : store) :
  dict_wf (files s) /\ up_to_date fs (files s) ->
  dict_wf (files (snd (check_for_new_files fs self s))) /\
  up_to_date fs (files (snd (check_for_new_files fs self s))).
Proof.
  intros H. unfold check_for_new_files, bind, listdir.
  destruct (os_listdir fs (dir_path self)) as [names|]; [|exact H].
  unfold ret.
  apply (for_each_keeps
           (fun s => dict_wf (files s) /\ up_to_date fs (files s)));
    [|exact H].
  intros x s0 _. apply check_for_new_files_body_inv.
Qed.

(** A cycle that completed leaves a snapshot that is well formed, up to
    date, and holds the joined path of every matching entry. *)
Lemma cycle_settles (fs : filesystem) (self : PyFileWatcher) (s s1 : store) :
  dict_wf (files s) ->
  cycle fs self s = (Ok tt, s1) ->
  dict_wf (files s1) /\ up_to_date fs (files s1) /\
  exists names,
    os_listdir fs (dir_path self) = Some names /\
    forall n, In n names ->
      exists m,
        re_match (file_pattern self) n = Ok m /\
        (truthy m = true ->
         dict_contains (os_path_join (dir_path self) n) (files s1) = true).
Proof.
  intros Hwf. unfold cycle.
  rewrite (bind_ok _ _ _ _ _ (check_for_deleted_files_spec fs s Hwf)).
  set (sd := {| files := filter (present fs) (files s); threads := _ |}).
  assert (Hwfd : dict_wf (files sd)) by (apply dict_wf_filter; exact Hwf).
  assert (Hread : forall k, In k (keys (files sd)) -> os_stat fs k <> None).
  { intros k Hk. apply In_keys_filter in Hk. destruct Hk as [v [_ Hp]].
    unfold present, os_path_exists in Hp. cbn [fst] in Hp.
    destruct (os_stat fs k); [discriminate | discriminate]. }
  rewrite (bind_ok _ _ _ _ _ (check_for_modified_files_spec fs sd Hwfd Hread)).
  set (sm := {| files := map (refreshed fs) (files sd); threads := _ |}).
  intros Hnew.
  assert (Hm : dict_wf (files sm) /\ up_to_date fs (files sm)).
  { split.
    - unfold dict_wf. cbn [files sm]. rewrite keys_refreshed. exact Hwfd.
    - apply up_to_date_refreshed. }
  pose proof (check_for_new_files_inv fs self sm Hm) as Hinv.
  rewrite Hnew in Hinv. cbn [snd] in Hinv.
  destruct Hinv as [H1 H2]. split; [exact H1|]. split; [exact H2|].
  now apply check_for_new_files_done with (s := sm).
Qed.

(** On a snapshot that is settled for [fs], a cycle on [fs] changes
    nothing and starts nothing. *)
Lemma cycle_silent (fs : filesystem) (self : PyFileWatcher) (s1 : store)
  (names : list string) :
  dict_wf (files s1) ->
  up_to_date fs (files s1) ->
  os_listdir fs (dir_path self) = Some names ->
  (forall n, In n names ->
     exists m,
       re_match (file_pattern self) n = Ok m /\
       (truthy m = true ->
        dict_contains (os_path_join (dir_path self) n) (files s1) = true)) ->
  cycle fs self s1 = (Ok tt, s1).
Proof.
  intros Hwf Hup Hls Hnames.
  assert (Hentry : forall k v, In (k, v) (files s1) ->
                     exists st, os_stat fs k = Some st /\ st_mtime st = v).
  { intros k v Hin. apply Hup. now apply dict_get_entry. }
  assert (Hdel : check_for_deleted_files fs s1 = (Ok tt, s1)).
  { rewrite check_for_deleted_files_spec by assumption.
    rewrite filter_all, filter_none.
    - destruct s1; cbn [files threads keys map]. now rewrite app_nil_r.
    - intros [k v] Hin. destruct (Hentry k v Hin) as [st [Hst _]].
      unfold absent, os_path_exists. cbn [fst]. now rewrite Hst.
    - intros [k v] Hin. destruct (Hentry k v Hin) as [st [Hst _]].
      unfold present, os_path_exists. cbn [fst]. now rewrite Hst. }
  assert (Hmod : check_for_modified_files fs s1 = (Ok tt, s1)).
  { rewrite check_for_modified_files_spec; [|assumption|].
    - rewrite map_fixed, filter_none.
      + destruct s1; cbn [files threads keys map]. now rewrite app_nil_r.
      + intros [k v] Hin. destruct (Hentry k v Hin) as [st [Hst Hv]].
        unfold changed, current_mtime. cbn [fst snd]. rewrite Hst, Hv.
        now rewrite Z.eqb_refl.
      + intros [k v] Hin. destruct (Hentry k v Hin) as [st [Hst Hv]].
        unfold refreshed, current_mtime. cbn [fst snd]. now rewrite Hst, Hv.
    - intros k Hk. apply dict_get_In in Hk.
      destruct (dict_get k (files s1)) as [v|] eqn:Hget; [|congruence].
      destruct (Hup k v Hget) as [st [Hst _]]. congruence. }
  assert (Hnew : check_for_new_files fs self s1 = (Ok tt, s1)).
  { unfold check_for_new_files, bind, listdir. rewrite Hls. unfold ret.
    apply for_each_skip. intros n Hn.
    destruct (Hnames n Hn) as [m [Hm Hc]].
    rewrite check_for_new_files_body_eq. cbv zeta. rewrite Hm.
    destruct (truthy m); [|reflexivity]. now rewrite Hc. }
  unfold cycle.
  rewrite (bind_ok _ _ _ _ _ Hdel), (bind_ok _ _ _ _ _ Hmod). exact Hnew.
Qed.

(** C5: when a polling cycle has run to completion on a filesystem, from
    any snapshot, the following cycle on the same filesystem starts no
    callback thread (deleted, modified or created) and leaves the snapshot
    as it is, and so does the one after it. *)
Theorem cycle_idempotent (fs : filesystem) (self : PyFileWatcher)
  (s s1 : store) :
  dict_wf (files s) ->
  cycle fs self s = (Ok tt, s1) ->
  cycle fs self s1 = (Ok tt, s1) /\
  (cycle fs self ;; cycle fs self) s1 = (Ok tt, s1).
Proof.
  intros Hwf Hrun.
  destruct (cycle_settles fs self s s1 Hwf Hrun)
    as (Hwf1 & Hup1 & names & Hls & Hnames).
  pose proof (cycle_silent fs self s1 names Hwf1 Hup1 Hls Hnames) as Hsilent.
  split; [exact Hsilent|].
  rewrite (bind_ok _ _ _ _ _ Hsilent). exact Hsilent.
Qed.

End CycleProperties.

(** ** Construction *)

Section Construction.
Context `{RE : ReModule}.

(** When [__init__] returns an object: the path is a directory and the
    pattern, besides compiling, matches the empty string. *)
Lemma init_accepts (fs : filesystem) (dir pattern : string) :
  (exists w, __init__ fs dir pattern = Ok w) <->
  os_path_exists fs dir = true /\ os_path_isdir fs dir = true /\
  exists c e, re_compile pattern = Some c /\ Pattern_match c "" = Some e.
Proof.
  unfold __init__, re_match.
  destruct (os_path_exists fs dir); cbn [negb].
  2:{ split; [intros [w H]; discriminate | intros [H _]; discriminate]. }
  destruct (os_path_isdir fs dir); cbn [negb].
  2:{ split; [intros [w H]; discriminate | intros (_ & H & _); discriminate]. }
  destruct (re_compile pattern) as [c|].
  2:{ split; [intros [w H]; discriminate
             | intros (_ & _ & c & e & H & _); discriminate]. }
  destruct (Pattern_match c "") as [e|] eqn:Hm; cbn [truthy negb].
  - split; [intros _; repeat split; eauto | intros _; eauto].
  - split; [intros [w H]; discriminate|].
    intros (_ & _ & c' & e & Hc & He). congruence.
Qed.

(** A pattern that compiles but does not match the empty string is
    reported as not valid. *)
Lemma init_rejects_nonempty_match (fs : filesystem) (dir pattern : string)
  (c : Pattern) :
  os_path_isdir fs dir = true ->
  re_compile pattern = Some c ->
  Pattern_match c "" = None ->
  __init__ fs dir pattern
  = Raise (WatchDirectoryError ("File pattern " ++ pattern ++ " is not valid.")).
Proof.
  intros Hd Hc Hm. unfold __init__, re_match.
  assert (He : os_path_exists fs dir = true).
  { unfold os_path_isdir in Hd. unfold os_path_exists.
    destruct (os_stat fs dir); [reflexivity | discriminate]. }
  now rewrite He, Hd, Hc, Hm.
Qed.

(** C4: construction ends with an exception in each of the three cases,
    tested in this order: a path that does not exist gives the
    does-not-exist error whatever else holds; a path that exists and is no
    directory gives the not-a-directory error whatever the pattern; with a
    directory, a pattern that has a syntax error gives the pattern
    compiler's error.  The three exceptions are pairwise different. *)
Theorem init_checks_in_order (fs : filesystem) (dir pattern : string) :
  (os_path_exists fs dir = false ->
   __init__ fs dir pattern
   = Raise (WatchDirectoryError ("Directory " ++ dir ++ " does not exist."))) /\
  (os_path_exists fs dir = true -> os_path_isdir fs dir = false ->
   __init__ fs dir pattern
   = Raise (WatchDirectoryError ("Path " ++ dir ++ " is not a directory."))) /\
  (os_path_exists fs dir = true -> os_path_isdir fs dir = true ->
   re_compile pattern = None ->
   __init__ fs dir pattern = Raise (re_error pattern)) /\
  WatchDirectoryError ("Directory " ++ dir ++ " does not exist.")
    <> WatchDirectoryError ("Path " ++ dir ++ " is not a directory.") /\
  WatchDirectoryError ("Directory " ++ dir ++ " does not exist.")
    <> re_error pattern /\
  WatchDirectoryError ("Path " ++ dir ++ " is not a directory.")
    <> re_error pattern.
Proof.
  unfold __init__, re_match.
  split; [intros ->; reflexivity|].
  split; [intros -> ->; reflexivity|].
  split; [intros -> -> ->; reflexivity|].
  split; [|split]; intros H; discriminate H.
Qed.

End Construction.

(** ** Which entries are scanned *)

Section Scanning.
Context `{RE : ReModule}.

(** One pass of the loop of [get_files], by cases. *)
Lemma get_files_body_eq (fs : filesystem) (self : PyFileWatcher)
  (file_name : string) (s : store) :
  get_files_body fs self file_name s
  = match re_match (file_pattern self) file_name with
    | Raise e => (Raise e, s)
    | Ok m =>
        if truthy m then
          match os_stat fs (os_path_join (dir_path self) file_name) with
          | Some st =>
              (Ok tt,
               {| files := dict_set file_name (st_mtime st) (files s);
                  threads := threads s |})
          | None =>
              (Raise (OSError (os_path_join (dir_path self) file_name)), s)
          end
        else (Ok tt, s)
    end.
Proof.
  unfold get_files_body, bind, lift. cbv zeta.
  destruct (re_match (file_pattern self) file_name) as [m|e]; [|reflexivity].
  destruct (truthy m); [|reflexivity].
  unfold stat_mtime. destruct (os_stat fs _); reflexivity.
Qed.

Lemma get_files_eq (fs : filesystem) (self : PyFileWatcher) :
  get_files fs self
  = match os_listdir fs (dir_path self) with
    | None => Raise (OSError (dir_path self))
    | Some names =>
        match for_each names (get_files_body fs self)
                {| files := []; threads := [] |} with
        | (Ok _, s) => Ok (files s)
        | (Raise e, _) => Raise e
        end
    end.
Proof.
  unfold get_files, bind, listdir.
  destruct (os_listdir fs (dir_path self)); reflexivity.
Qed.

(** The keys [get_files] produces are entry names as listed. *)
Lemma get_files_keys_are_names (fs : filesystem) (self : PyFileWatcher)
  (names : list string) (d : dict) :
  os_listdir fs (dir_path self) = Some names ->
  get_files fs self = Ok d ->
  forall k, In k (keys d) -> In k names.
Proof.
  intros Hls. rewrite get_files_eq, Hls.
  assert (Hbody : forall x s0, In x names ->
            (forall k, In k (keys (files s0)) -> In k names) ->
            forall k, In k (keys (files (snd (get_files_body fs self x s0)))) ->
                      In k names).
  { intros x s0 Hx Hs0 k. rewrite get_files_body_eq.
    destruct (re_match _ _) as [m|e]; [|apply Hs0].
    destruct (truthy m); [|apply Hs0].
    destruct (os_stat fs _) as [st|]; [|apply Hs0].
    cbn [snd files]. intros Hk. apply dict_get_In in Hk.
    destruct (String.eqb_spec x k) as [<-|Hne]; [exact Hx|].
    rewrite dict_get_set_other in Hk by assumption.
    apply Hs0. now apply dict_get_In. }
  pose proof (for_each_keeps
                (fun s => forall k, In k (keys (files s)) -> In k names)
                (get_files_body fs self) names Hbody
                {| files := []; threads := [] |}
                (fun k (H : In k []) => match H with end)) as Hkeep.
  destruct (for_each names (get_files_body fs self) _) as [[[]|e] s] eqn:Hrun;
    [|discriminate].
  intros [= <-]. exact Hkeep.
Qed.

(** C10: an entry whose name the pattern matches on a proper prefix only
    (the match ends before the end of the name) is taken as matching: it
    is a key of what the initial scan returns, under its name, and after
    the creation step its joined path is a key of the snapshot.  Both
    scans complete when every listed entry can be read. *)
Theorem prefix_match_counts_as_match (fs : filesystem) (self : PyFileWatcher)
  (names : list string) (c : Pattern) (n : string) (e : nat) :
  os_listdir fs (dir_path self) = Some names ->
  (forall x, In x names ->
     os_stat fs (os_path_join (dir_path self) x) <> None) ->
  In n names ->
  re_compile (file_pattern self) = Some c ->
  Pattern_match c n = Some e ->
  e < String.length n ->
  (exists d, get_files fs self = Ok d /\ In n (keys d)) /\
  (forall s, exists s',
     check_for_new_files fs self s = (Ok tt, s') /\
     In (os_path_join (dir_path self) n) (keys (files s'))).
Proof.
  intros Hls Hread Hn Hc Hm _.
  assert (Hre : forall x, re_match (file_pattern self) x = Ok (Pattern_match c x))
    by (intros x; unfold re_match; now rewrite Hc).
  split.
  - rewrite get_files_eq, Hls.
    destruct (for_each_total (get_files_body fs self) names) with
      (s := {| files := []; threads := [] |}) as [s' Hrun].
    { intros x s Hx. rewrite get_files_body_eq, Hre.
      destruct (truthy _); [|eauto].
      destruct (os_stat fs _) eqn:Hst; [eauto | now apply Hread in Hst]. }
    rewrite Hrun. exists (files s'). split; [reflexivity|].
    apply dict_contains_In.
    apply (for_each_ok
             (fun x s => truthy (Pattern_match c x) = true ->
                         dict_contains x (files s) = true)
             (get_files_body fs self) names) with (s := {| files := []; threads := [] |}) (x := n);
      [ | | exact Hrun | exact Hn | now rewrite Hm].
    + intros x s s1. rewrite get_files_body_eq, Hre. intros H Ht.
      rewrite Ht in H. destruct (os_stat fs _); [|discriminate].
      injection H as <-. cbn [files]. unfold dict_contains.
      now rewrite dict_get_set_same.
    + intros x y s s1 Hq. rewrite get_files_body_eq, Hre. intros H Ht.
      specialize (Hq Ht).
      destruct (truthy (Pattern_match c y)); [|now injection H as <-].
      destruct (os_stat fs _); [|discriminate].
      injection H as <-. cbn [files]. now apply dict_contains_set.
  - intros s. unfold check_for_new_files, bind, listdir. rewrite Hls.
    unfold ret.
    destruct (for_each_total (check_for_new_files_body fs self) names) with
      (s := s) as [s' Hrun].
    { intros x s0 Hx. rewrite check_for_new_files_body_eq. cbv zeta.
      rewrite Hre. destruct (truthy _); [|eauto].
      destruct (dict_contains _ _); [eauto|].
      destruct (os_stat fs _) eqn:Hst; [eauto | now apply Hread in Hst]. }
    exists s'. split; [exact Hrun|].
    apply dict_contains_In.
    assert (Hdone : check_for_new_files fs self s = (Ok tt, s')).
    { unfold check_for_new_files, bind, listdir. now rewrite Hls. }
    destruct (check_for_new_files_done fs self s s' Hdone)
      as (names' & Hls' & Hall).
    assert (names' = names) by congruence. subst names'.
    destruct (Hall n Hn) as (m & Hmn & Hcn).
    rewrite Hre, Hm in Hmn. injection Hmn as <-. now apply Hcn.
Qed.

End Scanning.

(** ** The loop *)

Section Loop.
Context `{RE : ReModule}.

Lemma call_at (c : M unit) (p : pc) (m : machine) :
  at_ (call c p m)
  = match fst (c (mem m)) with Ok _ => p | Raise e => raised e end.
Proof. unfold call. destruct (c (mem m)) as [[[]|e] s]; reflexivity. Qed.

Lemma call_mem (c : M unit) (p : pc) (m : machine) :
  mem (call c p m) = snd (c (mem m)).
Proof. unfold call. destruct (c (mem m)) as [[[]|e] s]; reflexivity. Qed.

Lemma call_self (c : M unit) (p : pc) (m : machine) :
  self (call c p m) = self m.
Proof. unfold call. destruct (c (mem m)) as [[[]|e] s]; reflexivity. Qed.

Lemma call_disk (c : M unit) (p : pc) (m : machine) :
  disk (call c p m) = disk m.
Proof. unfold call. destruct (c (mem m)) as [[[]|e] s]; reflexivity. Qed.

Lemma next_self (m : machine) : self (next m) = self m.
Proof.
  unfold next. destruct (at_ m); try reflexivity; try apply call_self.
  - destruct (get_files _ _); reflexivity.
  - destruct (negb _); reflexivity.
Qed.

Lemma next_ended (m : machine) : ended (at_ m) = true -> next m = m.
Proof. unfold next. destruct (at_ m); simpl; congruence. Qed.

(** Once [watch] has ended nothing moves any more. *)
Lemma ended_forever (ins : list input) (m : machine) :
  ended (at_ m) = true ->
  at_ (run ins m) = at_ m /\ mem (run ins m) = mem m /\ executed ins m = [].
Proof.
  revert m. induction ins as [|i t IH]; intros m Hend; [now repeat split|].
  destruct i; cbn [run executed react].
  - rewrite Hend, next_ended by assumption. apply IH. exact Hend.
  - destruct (IH (react Stop m) Hend) as (H1 & H2 & H3). auto.
  - destruct (IH (react (Fs fs) m) Hend) as (H1 & H2 & H3). auto.
Qed.

(** The statement run after a statement is its textual successor. *)
Lemma next_follows (m : machine) :
  ended (at_ m) = false -> ended (at_ (next m)) = false ->
  follows (at_ m) (at_ (next m)).
Proof.
  unfold next. destruct (at_ m); simpl; try discriminate; intros _.
  - destruct (get_files _ _); simpl; [constructor | discriminate].
  - destruct (negb _); simpl; [constructor | discriminate].
  - constructor.
  - constructor.
  - rewrite call_at. destruct (fst _); simpl; [constructor | discriminate].
  - rewrite call_at. destruct (fst _); simpl; [constructor | discriminate].
  - rewrite call_at. destruct (fst _); simpl; [constructor | discriminate].
Qed.

Lemma executed_head (ins : list input) (m : machine) :
  executed ins m = [] \/
  exists tl, executed ins m = at_ m :: tl /\ ended (at_ m) = false.
Proof.
  revert m. induction ins as [|i t IH]; intros m; [now left|].
  destruct i; cbn [executed react].
  - destruct (ended (at_ m)) eqn:Hend.
    + rewrite next_ended by assumption. cbn [app].
      destruct (IH m) as [H|[tl [_ H]]]; [now left | congruence].
    + right. eexists. split; reflexivity.
  - apply (IH (react Stop m)).
  - apply (IH (react (Fs fs) m)).
Qed.

Lemma executed_in_order (ins : list input) (m : machine) :
  LocallySorted follows (executed ins m).
Proof.
  revert m. induction ins as [|i t IH]; intros m; [constructor|].
  destruct i; cbn [executed react]; [|apply IH|apply IH].
  destruct (ended (at_ m)) eqn:Hend; [apply IH|].
  cbn [app]. pose proof (IH (next m)) as Hrest.
  destruct (executed_head t (next m)) as [Hnil|[tl [Hcons Hlive]]].
  - rewrite Hnil. constructor.
  - rewrite Hcons in *. constructor; [exact Hrest|].
    now apply next_follows.
Qed.

(** One iteration without interference is [cycle] on the local [files]. *)
Lemma iteration_is_cycle (m : machine) :
  at_ m = at_while -> stop_watching (self m) = false ->
  mem (run Scenario.iteration m) = snd (cycle (disk m) (self m) (mem m)) /\
  at_ (run Scenario.iteration m)
  = match fst (cycle (disk m) (self m) (mem m)) with
    | Ok _ => at_while
    | Raise e => raised e
    end.
Proof.
  intros Hat Hflag. unfold Scenario.iteration. cbn [run react].
  set (m1 := next m). set (m2 := next m1). set (m3 := next m2).
  set (m4 := next m3). set (m5 := next m4). set (m6 := next m5).
  assert (A1 : at_ m1 = at_sleep /\ mem m1 = mem m /\ disk m1 = disk m
               /\ self m1 = self m).
  { subst m1. unfold next. rewrite Hat, Hflag. cbn. auto. }
  destruct A1 as (a1 & b1 & c1 & d1).
  assert (A2 : at_ m2 = at_print /\ mem m2 = mem m /\ disk m2 = disk m
               /\ self m2 = self m).
  { subst m2. unfold next. rewrite a1. cbn. auto. }
  destruct A2 as (a2 & b2 & c2 & d2).
  assert (A3 : at_ m3 = at_deleted /\ mem m3 = mem m /\ disk m3 = disk m
               /\ self m3 = self m).
  { subst m3. unfold next. rewrite a2. cbn. auto. }
  destruct A3 as (a3 & b3 & c3 & d3).
  assert (A4 : at_ m4 = match fst (check_for_deleted_files (disk m) (mem m)) with
                        | Ok _ => at_modified
                        | Raise e => raised e
                        end
               /\ mem m4 = snd (check_for_deleted_files (disk m) (mem m))
               /\ disk m4 = disk m /\ self m4 = self m).
  { subst m4. unfold next. rewrite a3.
    rewrite call_at, call_mem, call_disk, call_self, b3, c3. auto. }
  destruct A4 as (a4 & b4 & c4 & d4).
  unfold cycle, bind.
  destruct (check_for_deleted_files (disk m) (mem m)) as [[[]|e] s1];
    cbn [fst snd] in *.
  2:{ assert (E5 : m5 = m4) by (apply next_ended; now rewrite a4).
      assert (E6 : m6 = m4) by (subst m6; rewrite E5; exact E5).
      rewrite E6. auto. }
  assert (A5 : at_ m5 = match fst (check_for_modified_files (disk m) s1) with
                        | Ok _ => at_new
                        | Raise e => raised e
                        end
               /\ mem m5 = snd (check_for_modified_files (disk m) s1)
               /\ disk m5 = disk m /\ self m5 = self m).
  { subst m5. unfold next. rewrite a4.
    rewrite call_at, call_mem, call_disk, call_self, b4, c4. auto. }
  destruct A5 as (a5 & b5 & c5 & d5).
  destruct (check_for_modified_files (disk m) s1) as [[[]|e] s2];
    cbn [fst snd] in *.
  2:{ assert (E6 : m6 = m5) by (apply next_ended; now rewrite a5).
      rewrite E6. auto. }
  subst m6. unfold next. rewrite a5.
  rewrite call_at, call_mem, b5, c5, d5.
  destruct (check_for_new_files (disk m) (self m) s2) as [[[]|e] s3]; auto.
Qed.

Lemma react_keeps_flag (i : input) (m : machine) :
  stop_watching (self m) = true -> stop_watching (self (react i m)) = true.
Proof.
  destruct i; cbn [react self]; [now rewrite next_self | reflexivity | auto].
Qed.

Lemma next_remaining (m : machine) :
  stop_watching (self m) = true -> ended (at_ m) = false ->
  remaining (at_ (next m)) < remaining (at_ m).
Proof.
  intros Hflag. unfold next.
  destruct (at_ m); simpl; try discriminate; intros _; try lia.
  - destruct (get_files _ _); simpl; lia.
  - rewrite Hflag. simpl. lia.
  - rewrite call_at. destruct (fst _); simpl; lia.
  - rewrite call_at. destruct (fst _); simpl; lia.
  - rewrite call_at. destruct (fst _); simpl; lia.
Qed.

Lemma remaining_ended (p : pc) : remaining p = 0 -> ended p = true.
Proof. destruct p; simpl; intros H; try reflexivity; discriminate. Qed.

(** With the flag set, every step of the thread uses up a statement. *)
Lemma run_remaining (ins : list input) (m : machine) :
  stop_watching (self m) = true ->
  remaining (at_ (run ins m)) <= remaining (at_ m) - steps ins.
Proof.
  revert m. induction ins as [|i t IH]; intros m Hflag.
  - unfold steps. simpl. lia.
  - pose proof (IH (react i m) (react_keeps_flag i m Hflag)) as Hrec.
    destruct i; cbn [run]; unfold steps in *; cbn [filter length] in *.
    + cbn [react] in *. destruct (ended (at_ m)) eqn:Hend.
      * rewrite next_ended in * by assumption.
        destruct (at_ m); simpl in *; try discriminate; lia.
      * pose proof (next_remaining m Hflag Hend). lia.
    + exact Hrec.
    + exact Hrec.
Qed.

(** With the flag set, the statement of a given line runs at most once
    more, and not at all when the thread is already past it. *)
Lemma times_after_stop (n r : nat) :
  (forall p, ended p = false -> line p = n -> remaining p = r) ->
  forall (ins : list input) (m : machine),
    stop_watching (self m) = true ->
    times n (executed ins m) <= if Nat.leb r (remaining (at_ m)) then 1 else 0.
Proof.
  intros Hline ins. induction ins as [|i t IH]; intros m Hflag.
  - unfold times. simpl. destruct (Nat.leb _ _); lia.
  - pose proof (IH (react i m) (react_keeps_flag i m Hflag)) as Hrec.
    destruct i; cbn [executed]; [|exact Hrec|exact Hrec].
    cbn [react] in Hrec.
    destruct (ended (at_ m)) eqn:Hend.
    + rewrite next_ended in * by assumption. exact Hrec.
    + pose proof (next_remaining m Hflag Hend) as Hlt.
      unfold times in *. cbn [app filter].
      destruct (Nat.eqb_spec (line (at_ m)) n) as [Heq|Hne]; cbn [length].
      * rewrite (Hline _ Hend Heq) in *.
        rewrite Nat.leb_refl.
        destruct (Nat.leb_spec r (remaining (at_ (next m)))); lia.
      * destruct (Nat.leb_spec r (remaining (at_ (next m))));
          destruct (Nat.leb_spec r (remaining (at_ m))); lia.
Qed.

(** C7: the statements [watch] runs follow one another in the textual
    order of the loop (test of the flag, sleep, print, deletion,
    modification, creation, test of the flag, ...) in every interleaving
    with [stop()] and filesystem changes; an undisturbed iteration is the
    three detection steps chained on the one local [files]; and once
    [stop()] has set the flag, the sleep and each of the three detection
    steps run at most once more, and [watch] has ended after six more
    statements of the thread at the latest. *)
Theorem watch_order_and_stop :
  (forall (ins : list input) (m : machine),
     LocallySorted follows (executed ins m)) /\
  (forall m : machine,
     at_ m = at_while -> stop_watching (self m) = false ->
     mem (run Scenario.iteration m) = snd (cycle (disk m) (self m) (mem m)) /\
     at_ (run Scenario.iteration m)
     = match fst (cycle (disk m) (self m) (mem m)) with
       | Ok _ => at_while
       | Raise e => raised e
       end) /\
  (forall (ins : list input) (m : machine),
     let stopped := react Stop m in
     times 49 (executed ins stopped) <= 1 /\
     times 51 (executed ins stopped) <= 1 /\
     times 52 (executed ins stopped) <= 1 /\
     times 53 (executed ins stopped) <= 1 /\
     (6 <= steps ins -> ended (at_ (run ins stopped)) = true)).
Proof.
  split; [exact executed_in_order|].
  split; [exact iteration_is_cycle|].
  intros ins m stopped.
  assert (Hflag : stop_watching (self stopped) = true) by reflexivity.
  assert (Hone : forall n r,
             (forall p, ended p = false -> line p = n -> remaining p = r) ->
             times n (executed ins stopped) <= 1).
  { intros n r Hline.
    pose proof (times_after_stop n r Hline ins stopped Hflag) as H.
    destruct (Nat.leb _ _); lia. }
  repeat split.
  - apply (Hone 49 6). intros p; destruct p; simpl; congruence.
  - apply (Hone 51 4). intros p; destruct p; simpl; congruence.
  - apply (Hone 52 3). intros p; destruct p; simpl; congruence.
  - apply (Hone 53 2). intros p; destruct p; simpl; congruence.
  - intros Hsix. apply remaining_ended.
    pose proof (run_remaining ins stopped Hflag) as Hrem.
    assert (remaining (at_ stopped) <= 6) by (destruct (at_ stopped); simpl; lia).
    lia.
Qed.

(** C8: when the thread is about to run the modification step and a path
    of the snapshot cannot be read on the filesystem as it is then, the
    step raises [OSError] for such a path and [watch] ends with that
    exception: whatever happens afterwards, no further statement of the
    loop runs and the state of [watch] stays as the exception left it. *)
Theorem unreadable_path_ends_watch (m : machine) (k : string) :
  at_ m = at_modified ->
  In k (keys (files (mem m))) ->
  os_stat (disk m) k = None ->
  exists k0,
    In k0 (keys (files (mem m))) /\
    os_stat (disk m) k0 = None /\
    fst (check_for_modified_files (disk m) (mem m)) = Raise (OSError k0) /\
    at_ (next m) = raised (OSError k0) /\
    forall ins : list input,
      at_ (run ins (next m)) = raised (OSError k0) /\
      mem (run ins (next m)) = mem (next m) /\
      executed ins (next m) = [].
Proof.
  intros Hat Hin Hnone.
  destruct (modified_loop_raises (disk m) (files (mem m)) (mem m))
    as (k0 & s' & Hk0 & Hst & Hrun); [eauto|].
  assert (Hcall : check_for_modified_files (disk m) (mem m)
                  = (Raise (OSError k0), s')).
  { unfold check_for_modified_files, bind, items. exact Hrun. }
  assert (Hnext : at_ (next m) = raised (OSError k0)).
  { unfold next. rewrite Hat, call_at, Hcall. reflexivity. }
  exists k0. split; [exact Hk0|]. split; [exact Hst|].
  split; [now rewrite Hcall|]. split; [exact Hnext|].
  intros ins.
  destruct (ended_forever ins (next m)) as (H1 & H2 & H3);
    [now rewrite Hnext|].
  rewrite H1, Hnext. auto.
Qed.

End Loop.

(** ** Snapshots that [watch] can hold *)

Lemma keys_remove_incl (k k' : string) (d : dict) :
  In k' (keys (dict_remove k d)) -> In k' (keys d).
Proof.
  induction d as [|[k0 v0] t IH]; simpl; [tauto|].
  destruct (String.eqb k k0); simpl; tauto.
Qed.

Lemma dict_wf_remove (k : string) (d : dict) :
  dict_wf d -> dict_wf (dict_remove k d).
Proof.
  unfold dict_wf. induction d as [|[k0 v0] t IH]; simpl; intros Hwf; [constructor|].
  inversion Hwf as [|? ? Hnin Hnd]; subst.
  destruct (String.eqb k k0); simpl; [exact Hnd|].
  constructor; [|auto]. intros Hin. apply Hnin.
  eapply keys_remove_incl; eauto.
Qed.

Lemma string_length_append (a b : string) :
  String.length (a ++ b) = String.length a + String.length b.
Proof. induction a as [|c a IH]; simpl; [reflexivity | now rewrite IH]. Qed.

(** Joining a name to a directory never gives back the name. *)
Lemma os_path_join_not_name (a b : string) :
  a <> "" -> startswith_sep b = false -> os_path_join a b <> b.
Proof.
  intros Ha Hb Heq.
  assert (Hlen : String.length b < String.length (os_path_join a b)).
  { unfold os_path_join. rewrite Hb.
    assert (0 < String.length a) by (destruct a; simpl; [congruence | lia]).
    destruct (String.eqb a "" || endswith_sep a)%bool;
      rewrite !string_length_append; simpl; lia. }
  rewrite Heq in Hlen. lia.
Qed.

Section Reachable.
Context `{RE : ReModule}.

(** The initial scan returns a well-formed dictionary. *)
Lemma get_files_wf (fs : filesystem) (self : PyFileWatcher) (d : dict) :
  get_files fs self = Ok d -> dict_wf d.
Proof.
  rewrite get_files_eq.
  destruct (os_listdir fs (dir_path self)) as [names|]; [|discriminate].
  assert (Hbody : forall x s0, In x names -> dict_wf (files s0) ->
                    dict_wf (files (snd (get_files_body fs self x s0)))).
  { intros x s0 _ Hs0. rewrite get_files_body_eq.
    destruct (re_match _ _) as [m|e]; [|exact Hs0].
    destruct (truthy m); [|exact Hs0].
    destruct (os_stat fs _) as [st|]; [|exact Hs0].
    cbn [snd files]. now apply dict_wf_set. }
  pose proof (for_each_keeps (fun s => dict_wf (files s))
                (get_files_body fs self) names Hbody
                {| files := []; threads := [] |} (NoDup_nil _)) as Hkeep.
  destruct (for_each names (get_files_body fs self) _) as [[[]|e] s];
    [|discriminate].
  intros [= <-]. exact Hkeep.
Qed.

(** No key of the initial scan is the path the creation step uses for
    the same entry. *)
Lemma get_files_keys_not_joined (fs : filesystem) (self : PyFileWatcher)
  (names : list string) (d : dict) :
  dir_path self <> "" ->
  os_listdir fs (dir_path self) = Some names ->
  (forall n, In n names -> startswith_sep n = false) ->
  get_files fs self = Ok d ->
  forall k, In k (keys d) ->
    In k names /\ os_path_join (dir_path self) k <> k.
Proof.
  intros Hdir Hls Hnames Hget k Hk.
  pose proof (get_files_keys_are_names fs self names d Hls Hget k Hk) as Hin.
  split; [exact Hin|].
  apply os_path_join_not_name; auto.
Qed.

Lemma check_for_deleted_files_wf (fs : filesystem) (s : store) :
  dict_wf (files s) -> dict_wf (files (snd (check_for_deleted_files fs s))).
Proof.
  intros Hwf. rewrite check_for_deleted_files_spec by assumption.
  cbn [snd files]. now apply dict_wf_filter.
Qed.

Lemma check_for_modified_files_wf (fs : filesystem) (s : store) :
  dict_wf (files s) -> dict_wf (files (snd (check_for_modified_files fs s))).
Proof.
  intros Hwf. unfold check_for_modified_files, bind, items.
  apply (for_each_keeps (fun s => dict_wf (files s))); [|exact Hwf].
  intros [k v] s0 _ Hs0. unfold check_for_modified_files_body, bind, stat_mtime.
  destruct (os_stat fs k) as [st|]; [|exact Hs0].
  unfold ret at 1. destruct (negb _); [|exact Hs0].
  unfold setitem, start. cbn [snd files]. now apply dict_wf_set.
Qed.

Lemma check_for_new_files_wf (fs : filesystem) (self : PyFileWatcher)
  (s : store) :
  dict_wf (files s) ->
  dict_wf (files (snd (check_for_new_files fs self s))).
Proof.
  intros Hwf. unfold check_for_new_files, bind, listdir.
  destruct (os_listdir fs (dir_path self)) as [names|]; [|exact Hwf].
  unfold ret.
  apply (for_each_keeps (fun s => dict_wf (files s))); [|exact Hwf].
  intros x s0 _ Hs0. rewrite check_for_new_files_body_eq. cbv zeta.
  destruct (re_match _ _) as [m|e]; [|exact Hs0].
  destruct (truthy m); [|exact Hs0].
  destruct (dict_contains _ _); [exact Hs0|].
  destruct (os_stat fs _) as [st|]; [|exact Hs0].
  cbn [snd files]. now apply dict_wf_set.
Qed.

Lemma next_wf (m : machine) :
  dict_wf (files (mem m)) -> dict_wf (files (mem (next m))).
Proof.
  intros Hwf. unfold next. destruct (at_ m); try exact Hwf.
  - destruct (get_files (disk m) (self m)) as [d|e] eqn:Hget; [|exact Hwf].
    cbn [mem files]. now apply (get_files_wf (disk m) (self m)).
  - destruct (negb _); exact Hwf.
  - rewrite call_mem. now apply check_for_deleted_files_wf.
  - rewrite call_mem. now apply check_for_modified_files_wf.
  - rewrite call_mem. now apply check_for_new_files_wf.
Qed.

(** Whatever the schedule, the snapshot [watch] holds is well formed. *)
Lemma watch_wf (w : PyFileWatcher) (fs : filesystem) (ins : list input) :
  dict_wf (files (mem (watch w fs ins))).
Proof.
  unfold watch.
  assert (H : forall m, dict_wf (files (mem m)) ->
                        dict_wf (files (mem (run ins m)))).
  { induction ins as [|i t IH]; intros m Hm; [exact Hm|].
    cbn [run]. apply IH. destruct i; cbn [react mem]; [|exact Hm|exact Hm].
    now apply next_wf. }
  apply H. constructor.
Qed.

End Reachable.

(** ** The scenarios, evaluated *)

Section Evaluated.
Import Scenario.

Lemma init_checks_in_order_witness :
  __init__ tmp_w "/nope" "("
  = Raise (WatchDirectoryError "Directory /nope does not exist.") /\
  __init__ tmp_w "/tmp/w/other.log" "("
  = Raise (WatchDirectoryError "Path /tmp/w/other.log is not a directory.") /\
  __init__ tmp_w "/tmp/w" "(" = Raise (re_error "(").
Proof.
  split; [|split].
  - apply (proj1 (init_checks_in_order tmp_w "/nope" "(")). reflexivity.
  - apply (proj1 (proj2 (init_checks_in_order tmp_w "/tmp/w/other.log" "(")));
      reflexivity.
  - apply (proj1 (proj2 (proj2 (init_checks_in_order tmp_w "/tmp/w" "("))));
      reflexivity.
Defined.

(** C3: the pattern [^data_.*\.txt$] compiles and matches the entry name
    [data_1.txt], yet constructing a watcher of the directory [/tmp/w]
    with it ends with the error that the pattern is not valid, because
    the pattern does not match the empty string. *)
Theorem init_reports_valid_pattern_invalid :
  re_compile "^data_.*\.txt$" <> None /\
  re_match "^data_.*\.txt$" "data_1.txt" = Ok (Some 10) /\
  re_match "^data_.*\.txt$" "" = Ok None /\
  os_path_isdir tmp_w "/tmp/w" = true /\
  __init__ tmp_w "/tmp/w" "^data_.*\.txt$"
  = Raise (WatchDirectoryError "File pattern ^data_.*\.txt$ is not valid.").
Proof.
  split; [|split; [|split; [|split]]]; try reflexivity.
  vm_compute. discriminate.
Qed.

(** C2: on the directory [/tmp/w] the initial scan returns a dictionary
    keyed by the bare entry names, and the creation scan started from an
    empty snapshot one keyed by the joined paths; with that initial
    dictionary the first iteration, on an unchanged directory, reports
    both entries deleted and then both created. *)
Theorem get_files_keys_are_not_joined :
  get_files tmp_w (watcher "/tmp/w" ".*")
  = Ok [("data_1.txt", 5%Z); ("other.log", 6%Z)] /\
  check_for_new_files tmp_w (watcher "/tmp/w" ".*") empty
  = (Ok tt,
     {| files := [("/tmp/w/data_1.txt", 5%Z); ("/tmp/w/other.log", 6%Z)];
        threads := [file_created_callback "/tmp/w/data_1.txt";
                    file_created_callback "/tmp/w/other.log"] |}) /\
  mem (watch (watcher "/tmp/w" ".*") tmp_w (polls 1))
  = {| files := [("/tmp/w/data_1.txt", 5%Z); ("/tmp/w/other.log", 6%Z)];
       threads := [file_deleted_callback "data_1.txt";
                   file_deleted_callback "other.log";
                   file_created_callback "/tmp/w/data_1.txt";
                   file_created_callback "/tmp/w/other.log"] |}.
Proof. repeat split; reflexivity. Qed.

(** C1: a process that watches its current directory [.], which holds the
    single entry [data_1.txt] and never changes, has after one polling
    cycle, and after two, a snapshot with the two keys [data_1.txt] and
    [./data_1.txt]; before the first cycle, and in the scenario of
    [/tmp/w], the keys are the bare names. *)
Theorem snapshot_keys_after_polling :
  __init__ cwd "." ".*" = Ok (watcher "." ".*") /\
  os_listdir cwd "." = Some ["data_1.txt"] /\
  at_ (watch (watcher "." ".*") cwd (polls 1)) = at_while /\
  keys (files (mem (watch (watcher "." ".*") cwd (polls 1))))
  = ["data_1.txt"; "./data_1.txt"] /\
  keys (files (mem (watch (watcher "." ".*") cwd (polls 2))))
  = ["data_1.txt"; "./data_1.txt"] /\
  keys (files (mem (watch (watcher "/tmp/w" ".*") tmp_w (polls 0))))
  = ["data_1.txt"; "other.log"].
Proof. repeat split; reflexivity. Qed.

Lemma cycle_idempotent_witness :
  let w := watcher "/tmp/w" ".*" in
  let s1 :=
    {| files := [("/tmp/w/data_1.txt", 5%Z); ("/tmp/w/other.log", 6%Z)];
       threads := [file_deleted_callback "data_1.txt";
                   file_deleted_callback "other.log";
                   file_created_callback "/tmp/w/data_1.txt";
                   file_created_callback "/tmp/w/other.log"] |} in
  cycle tmp_w w s1 = (Ok tt, s1) /\
  (cycle tmp_w w ;; cycle tmp_w w) s1 = (Ok tt, s1).
Proof.
  intros w s1.
  apply (cycle_idempotent tmp_w w
           {| files := [("data_1.txt", 5%Z); ("other.log", 6%Z)];
              threads := [] |} s1).
  - apply distinct_NoDup. reflexivity.
  - reflexivity.
Defined.

Lemma check_for_modified_files_fires_on_inequality_witness :
  let s := {| files := [("/tmp/w/data_1.txt", 5%Z); ("/tmp/w/other.log", 6%Z)];
              threads := [] |} in
  exists s' started,
    check_for_modified_files tmp_w_older s = (Ok tt, s') /\
    threads s' = threads s ++ started /\
    NoDup started /\
    (forall t, In t started ->
       exists k, t = file_modified_callback k /\ In k (keys (files s))) /\
    keys (files s') = keys (files s) /\
    forall k last, dict_get k (files s) = Some last ->
      exists st,
        os_stat tmp_w_older k = Some st /\
        dict_get k (files s') = Some (st_mtime st) /\
        (In (file_modified_callback k) started <-> st_mtime st <> last) /\
        ((st_mtime st < last)%Z -> In (file_modified_callback k) started) /\
        (st_mtime st = last ->
           dict_get k (files s') = Some last /\
           ~ In (file_modified_callback k) started).
Proof.
  intros s.
  apply (check_for_modified_files_fires_on_inequality tmp_w_older s).
  - apply distinct_NoDup. reflexivity.
  - intros k Hk. simpl in Hk. destruct Hk as [<-|[<-|[]]]; reflexivity.
Defined.

Lemma check_for_new_files_keeps_known_entries_witness :
  dict_get "/tmp/w/data_1.txt"
    (files (snd (check_for_new_files tmp_w_touched (watcher "/tmp/w" ".*")
                   {| files := [("/tmp/w/data_1.txt", 5%Z)]; threads := [] |})))
  = Some 5%Z.
Proof.
  apply (check_for_new_files_keeps_known_entries tmp_w_touched
           (watcher "/tmp/w" ".*")
           {| files := [("/tmp/w/data_1.txt", 5%Z)]; threads := [] |}).
  reflexivity.
Defined.

Lemma prefix_match_counts_as_match_witness :
  let w := watcher "/tmp/w" "data" in
  (exists d, get_files tmp_w w = Ok d /\ In "data_1.txt" (keys d)) /\
  (forall s, exists s',
     check_for_new_files tmp_w w s = (Ok tt, s') /\
     In (os_path_join "/tmp/w" "data_1.txt") (keys (files s'))).
Proof.
  intros w.
  eapply (prefix_match_counts_as_match tmp_w w
            ["data_1.txt"; "other.log"] _ "data_1.txt" 4).
  - reflexivity.
  - intros x Hx. simpl in Hx.
    destruct Hx as [<-|[<-|[]]]; vm_compute; discriminate.
  - simpl. auto.
  - reflexivity.
  - reflexivity.
  - simpl. lia.
Defined.

(** The second iteration of a watch of [/tmp/w], stopped before its
    modification step, [data_1.txt] having been removed after the
    deletion step. *)
Lemma unreadable_path_ends_watch_witness :
  let m := watch (watcher "/tmp/w" ".*") tmp_w
             (polls 1 ++ [Step; Step; Step; Step; Fs tmp_w_removed]) in
  exists k0,
    In k0 (keys (files (mem m))) /\
    os_stat (disk m) k0 = None /\
    fst (check_for_modified_files (disk m) (mem m)) = Raise (OSError k0) /\
    at_ (next m) = raised (OSError k0) /\
    forall ins : list input,
      at_ (run ins (next m)) = raised (OSError k0) /\
      mem (run ins (next m)) = mem (next m) /\
      executed ins (next m) = [].
Proof.
  intros m.
  apply (unreadable_path_ends_watch m "/tmp/w/data_1.txt").
  - reflexivity.
  - vm_compute. left. reflexivity.
  - reflexivity.
Defined.

Lemma watch_order_and_stop_witness :
  let m := watch (watcher "/tmp/w" ".*") tmp_w (polls 1) in
  mem (run iteration m) = snd (cycle (disk m) (self m) (mem m)) /\
  at_ (run iteration m) = at_while /\
  executed (iteration ++ iteration) (react Stop (next m))
  = [at_sleep; at_print; at_deleted; at_modified; at_new; at_while].
Proof.
  intros m.
  destruct (proj1 (proj2 watch_order_and_stop) m eq_refl eq_refl) as [Hmem Hat].
  split; [exact Hmem|]. split; [|reflexivity].
  rewrite Hat. reflexivity.
Defined.

End Evaluated.

(** * Further properties of the detection steps *)

Lemma dict_get_filter_present (fs : filesystem) (k : string) (d : dict) :
  dict_get k (filter (present fs) d)
  = if os_path_exists fs k then dict_get k d else None.
Proof.
  induction d as [|[k' v] t IH]; cbn [filter dict_get].
  - now destruct (os_path_exists fs k).
  - unfold present at 1. cbn [fst].
    destruct (String.eqb_spec k k') as [<-|Hne].
    + destruct (os_path_exists fs k) eqn:Hex; cbn [dict_get].
      * now rewrite String.eqb_refl.
      * exact IH.
    + destruct (os_path_exists fs k') eqn:Hex'; cbn [dict_get].
      * destruct (String.eqb_spec k k'); [contradiction | exact IH].
      * exact IH.
Qed.

Lemma keys_set_present (k : string) (v : Z) (d : dict) :
  In k (keys d) -> keys (dict_set k v d) = keys d.
Proof.
  induction d as [|[k' v'] t IH]; simpl; [tauto|].
  intros Hin. destruct (String.eqb_spec k k') as [->|Hne]; [reflexivity|].
  simpl. f_equal. apply IH. destruct Hin; [congruence | assumption].
Qed.

(** One pass of the modification loop, by cases. *)
Lemma check_for_modified_files_body_eq (fs : filesystem) (k : string) (v : Z)
  (s : store) :
  check_for_modified_files_body fs (k, v) s
  = match os_stat fs k with
    | Some st =>
        if negb (st_mtime st =? v)%Z then
          (Ok tt,
           {| files := dict_set k (st_mtime st) (files s);
              threads := threads s ++ [file_modified_callback k] |})
        else (Ok tt, s)
    | None => (Raise (OSError k), s)
    end.
Proof.
  unfold check_for_modified_files_body, bind, stat_mtime.
  destruct (os_stat fs k) as [st|]; [|reflexivity].
  unfold ret at 1. destruct (negb (st_mtime st =? v)%Z); reflexivity.
Qed.


Section StepReports.
Context `{RE : ReModule}.

(** X1: on a well-formed snapshot the deletion step always completes
    (no [KeyError], no [OSError]); an entry whose path exists keeps its
    timestamp, an entry whose path does not exist is gone; the threads
    started are exactly the deleted-callbacks of the keys whose path does
    not exist, each once. *)
Theorem check_for_deleted_files_reports_missing (fs : filesystem) (s : store) :
  dict_wf (files s) ->
  exists s' started,
    check_for_deleted_files fs s = (Ok tt, s') /\
    threads s' = threads s ++ started /\
    NoDup started /\
    (forall t, In t started <->
       exists k, t = file_deleted_callback k /\ In k (keys (files s)) /\
                 os_path_exists fs k = false) /\
    (forall k, dict_get k (files s')
               = if os_path_exists fs k then dict_get k (files s) else None).
Proof.
  intros Hwf. eexists. eexists.
  split; [apply check_for_deleted_files_spec; exact Hwf|].
  cbn [files threads]. split; [reflexivity|]. split; [|split].
  - apply NoDup_started; [intros a b H; now injection H|].
    apply (dict_wf_filter (absent fs) _ Hwf).
  - intros t. rewrite in_map_iff. split.
    + intros [k [<- Hk]]. exists k. split; [reflexivity|].
      apply In_keys_filter in Hk. destruct Hk as [v [Hin Hab]].
      split.
      * change k with (fst (k, v)). now apply in_map.
      * unfold absent in Hab. cbn [fst] in Hab. now apply negb_true_iff.
    + intros [k [-> [Hk Hex]]]. exists k. split; [reflexivity|].
      apply In_keys_filter.
      unfold keys in Hk. apply in_map_iff in Hk.
      destruct Hk as [[k' v] [Hfst Hin]]. cbn [fst] in Hfst. subst k'.
      exists v. split; [exact Hin|].
      unfold absent. cbn [fst]. now rewrite Hex.
  - intros k. apply dict_get_filter_present.
Qed.

(** X2: however the modification step ends, with an exception or not, the
    keys of the snapshot are the same, in the same order, as before it,
    and every thread it started is the modified-callback of one of these
    keys. *)
Theorem check_for_modified_files_keeps_keys (fs : filesystem) (s : store) :
  keys (files (snd (check_for_modified_files fs s))) = keys (files s) /\
  exists started,
    threads (snd (check_for_modified_files fs s)) = threads s ++ started /\
    forall t, In t started ->
      exists k, t = file_modified_callback k /\ In k (keys (files s)).
Proof.
  unfold check_for_modified_files, bind, items.
  apply (for_each_keeps
           (fun s0 =>
              keys (files s0) = keys (files s) /\
              exists started,
                threads s0 = threads s ++ started /\
                forall t, In t started ->
                  exists k, t = file_modified_callback k /\
                            In k (keys (files s)))).
  - intros [k v] s0 Hin [Hkeys [started [Hthr Hall]]].
    assert (Hk : In k (keys (files s)))
      by (change k with (fst (k, v)); now apply in_map).
    rewrite check_for_modified_files_body_eq.
    destruct (os_stat fs k) as [st|]; [|split; eauto].
    destruct (negb _); [|split; eauto].
    cbn [snd files threads]. split.
    + rewrite keys_set_present; [exact Hkeys | now rewrite Hkeys].
    + exists (started ++ [file_modified_callback k]).
      split; [now rewrite Hthr, app_assoc|].
      intros t Ht. apply in_app_or in Ht. destruct Ht as [Ht|[<-|[]]]; eauto.
  - split; [reflexivity|]. exists []. split; [now rewrite app_nil_r|].
    intros t [].
Qed.

(** What the creation step has done to a store, however it ended: it
    appended entries and started their created-callbacks, nothing else. *)
Lemma check_for_new_files_appended (fs : filesystem) (self : PyFileWatcher)
  (s : store) :
  exists added,
    files (snd (check_for_new_files fs self s)) = files s ++ added /\
    threads (snd (check_for_new_files fs self s))
    = threads s ++ map file_created_callback (keys added) /\
    NoDup (keys added) /\
    forall k v, In (k, v) added ->
      ~ In k (keys (files s)) /\
      exists n names st,
        os_listdir fs (dir_path self) = Some names /\ In n names /\
        matched (file_pattern self) n /\
        k = os_path_join (dir_path self) n /\
        os_stat fs k = Some st /\ v = st_mtime st.
Proof.
  unfold check_for_new_files, bind, listdir.
  destruct (os_listdir fs (dir_path self)) as [names|] eqn:Hls.
  2:{ exists []. cbn [snd keys map]. rewrite !app_nil_r.
      split; [reflexivity|]. split; [reflexivity|].
      split; [constructor | intros k v []]. }
  unfold ret.
  apply (for_each_keeps
           (fun s0 =>
              exists added,
                files s0 = files s ++ added /\
                threads s0 = threads s ++ map file_created_callback (keys added) /\
                NoDup (keys added) /\
                forall k v, In (k, v) added ->
                  ~ In k (keys (files s)) /\
                  exists n names0 st,
                    Some names = Some names0 /\ In n names0 /\
                    matched (file_pattern self) n /\
                    k = os_path_join (dir_path self) n /\
                    os_stat fs k = Some st /\ v = st_mtime st)).
  - intros n s0 Hn [added (Hf & Ht & Hnd & Hall)].
    rewrite check_for_new_files_body_eq. cbv zeta.
    destruct (re_match (file_pattern self) n) as [m|e] eqn:Hm;
      [|exists added; auto].
    destruct m as [e|]; cbn [truthy]; [|exists added; auto].
    destruct (dict_contains _ (files s0)) eqn:Hc; [exists added; auto|].
    destruct (os_stat fs _) as [st|] eqn:Hst; [|exists added; auto].
    apply dict_contains_false in Hc. rewrite Hf, keys_app in Hc.
    exists (added ++ [(os_path_join (dir_path self) n, st_mtime st)]).
    cbn [snd files threads]. split; [|split; [|split]].
    + rewrite keys_set_new by (rewrite Hf, keys_app; exact Hc).
      now rewrite Hf, app_assoc.
    + rewrite Ht, keys_app, map_app, app_assoc. reflexivity.
    + rewrite keys_app. apply NoDup_app; [exact Hnd | repeat constructor; auto|].
      intros a Ha [<-|[]]. apply Hc. apply in_or_app. now right.
    + intros k v Hin. apply in_app_or in Hin.
      destruct Hin as [Hin|[Heq|[]]]; [now apply Hall|].
      injection Heq as <- <-. split.
      * intros Hk. apply Hc. apply in_or_app. now left.
      * exists n, names, st. repeat split; auto. now exists e.
  - exists []. cbn [keys map]. rewrite !app_nil_r.
    split; [reflexivity|]. split; [reflexivity|].
    split; [constructor | intros k v []].
Qed.

(** X3: however the creation step ends, it has only appended to the
    snapshot: the entries that were there are there, unchanged and in
    their order, followed by new entries with distinct keys; each new key
    was not a key before, is the joined path of a listed name that the
    pattern matches, and holds the timestamp read from that path; the
    threads started are the created-callbacks of the new keys, in the
    same order. *)
Theorem check_for_new_files_only_appends (fs : filesystem)
  (self : PyFileWatcher) (s : store) :
  exists added,
    files (snd (check_for_new_files fs self s)) = files s ++ added /\
    threads (snd (check_for_new_files fs self s))
    = threads s ++ map file_created_callback (keys added) /\
    NoDup (keys added) /\
    forall k v, In (k, v) added ->
      ~ In k (keys (files s)) /\
      exists n names st,
        os_listdir fs (dir_path self) = Some names /\ In n names /\
        matched (file_pattern self) n /\
        k = os_path_join (dir_path self) n /\
        os_stat fs k = Some st /\ v = st_mtime st.
Proof. exact (check_for_new_files_appended fs self s). Qed.

End StepReports.

(** * What one cycle reports *)

Lemma path_of_deleted (l : list string) :
  map path_of (map file_deleted_callback l) = l.
Proof. rewrite map_map. simpl. apply map_id. Qed.

Lemma path_of_modified (l : list string) :
  map path_of (map file_modified_callback l) = l.
Proof. rewrite map_map. simpl. apply map_id. Qed.

Lemma path_of_created (l : list string) :
  map path_of (map file_created_callback l) = l.
Proof. rewrite map_map. simpl. apply map_id. Qed.

Lemma In_keys_entry (k : string) (d : dict) :
  In k (keys d) <-> exists v, In (k, v) d.
Proof.
  unfold keys. rewrite in_map_iff. split.
  - intros [[k' v] [Hk Hin]]. simpl in Hk. subst k'. eauto.
  - intros [v Hin]. exists (k, v). auto.
Qed.

Lemma In_keys_present (fs : filesystem) (k : string) (d : dict) :
  In k (keys (filter (present fs) d)) <->
  In k (keys d) /\ os_path_exists fs k = true.
Proof.
  rewrite In_keys_filter, In_keys_entry. unfold present. cbn [fst].
  split; [intros [v [H1 H2]]; eauto | intros [[v H1] H2]; eauto].
Qed.

Lemma In_keys_absent (fs : filesystem) (k : string) (d : dict) :
  In k (keys (filter (absent fs) d)) <->
  In k (keys d) /\ os_path_exists fs k = false.
Proof.
  rewrite In_keys_filter, In_keys_entry. unfold absent. cbn [fst].
  split.
  - intros [v [H1 H2]]. apply negb_true_iff in H2. eauto.
  - intros [[v H1] H2]. exists v. rewrite H2. auto.
Qed.

Lemma changed_iff (fs : filesystem) (k : string) (v : Z) :
  changed fs (k, v) = true <->
  exists st, os_stat fs k = Some st /\ st_mtime st <> v.
Proof.
  unfold changed, current_mtime. cbn [fst snd].
  destruct (os_stat fs k) as [st|].
  - rewrite negb_true_iff, Z.eqb_neq. split; [eauto|].
    intros [st' [[= <-] H]]. exact H.
  - rewrite Z.eqb_refl. cbn [negb].
    split; [discriminate | intros [st [H _]]; discriminate].
Qed.

Section CycleReport.
Context `{RE : ReModule}.

(** A completed cycle, taken apart: the snapshot is the refreshed
    survivors followed by the added entries, and the threads are the
    deleted-, the modified- and the created-callbacks, in this order. *)
Lemma cycle_parts (fs : filesystem) (self : PyFileWatcher) (s s1 : store) :
  dict_wf (files s) ->
  cycle fs self s = (Ok tt, s1) ->
  exists added,
    files s1 = map (refreshed fs) (filter (present fs) (files s)) ++ added /\
    threads s1
    = threads s
      ++ map file_deleted_callback (keys (filter (absent fs) (files s)))
      ++ map file_modified_callback
           (keys (filter (changed fs) (filter (present fs) (files s))))
      ++ map file_created_callback (keys added) /\
    NoDup (keys added) /\
    forall k v, In (k, v) added ->
      ~ In k (keys (filter (present fs) (files s))) /\
      exists n names st,
        os_listdir fs (dir_path self) = Some names /\ In n names /\
        matched (file_pattern self) n /\
        k = os_path_join (dir_path self) n /\
        os_stat fs k = Some st /\ v = st_mtime st.
Proof.
  intros Hwf. unfold cycle.
  rewrite (bind_ok _ _ _ _ _ (check_for_deleted_files_spec fs s Hwf)).
  set (sd := {| files := filter (present fs) (files s); threads := _ |}).
  assert (Hwfd : dict_wf (files sd)) by (apply dict_wf_filter; exact Hwf).
  assert (Hread : forall k, In k (keys (files sd)) -> os_stat fs k <> None).
  { intros k Hk. apply In_keys_present in Hk. destruct Hk as [_ Hp].
    unfold os_path_exists in Hp.
    destruct (os_stat fs k); [discriminate | discriminate]. }
  rewrite (bind_ok _ _ _ _ _ (check_for_modified_files_spec fs sd Hwfd Hread)).
  set (sm := {| files := map (refreshed fs) (files sd); threads := _ |}).
  intros Hnew.
  destruct (check_for_new_files_appended fs self sm)
    as (added & Hf & Ht & Hnd & Hall).
  rewrite Hnew in Hf, Ht. cbn [snd] in Hf, Ht.
  exists added. split; [exact Hf|]. split; [|split; [exact Hnd|]].
  - rewrite Ht. cbn [threads sm sd files]. now rewrite <- !app_assoc.
  - intros k v Hin. destruct (Hall k v Hin) as [Hnot Hex].
    split; [|exact Hex].
    cbn [files sm sd] in Hnot. now rewrite keys_refreshed in Hnot.
Qed.

(** The keys and the threads of a completed cycle, by membership. *)
Lemma cycle_report (fs : filesystem) (self : PyFileWatcher) (s s1 : store) :
  dict_wf (files s) ->
  cycle fs self s = (Ok tt, s1) ->
  exists names started,
    os_listdir fs (dir_path self) = Some names /\
    threads s1 = threads s ++ started /\
    NoDup (map path_of started) /\
    (forall k, In k (keys (files s1)) <->
       (In k (keys (files s)) /\ os_path_exists fs k = true) \/
       (exists n, In n names /\ matched (file_pattern self) n /\
                  k = os_path_join (dir_path self) n)) /\
    (forall k, In (file_deleted_callback k) started <->
       In k (keys (files s)) /\ os_path_exists fs k = false) /\
    (forall k, In (file_modified_callback k) started <->
       exists v st, dict_get k (files s) = Some v /\
                    os_stat fs k = Some st /\ st_mtime st <> v) /\
    (forall k, In (file_created_callback k) started <->
       ~ In k (keys (files s)) /\
       exists n, In n names /\ matched (file_pattern self) n /\
                 k = os_path_join (dir_path self) n).
Proof.
  intros Hwf Hrun.
  destruct (cycle_parts fs self s s1 Hwf Hrun) as (added & Hf & Ht & Hnd & Hall).
  destruct (cycle_settles fs self s s1 Hwf Hrun)
    as (Hwf1 & Hup1 & names & Hls & Hnames).
  set (A := keys (filter (absent fs) (files s))) in *.
  set (B := keys (filter (changed fs) (filter (present fs) (files s)))) in *.
  set (C := keys added) in *.
  assert (HB : forall k, In k B ->
                 In k (keys (filter (present fs) (files s)))).
  { intros k Hk. unfold B in Hk. eapply keys_filter_incl; eauto. }
  assert (HC : forall k, In k C ->
                 ~ In k (keys (filter (present fs) (files s))) /\
                 os_path_exists fs k = true /\
                 exists n, In n names /\ matched (file_pattern self) n /\
                           k = os_path_join (dir_path self) n).
  { intros k Hk. unfold C in Hk. apply In_keys_entry in Hk.
    destruct Hk as [v Hin].
    destruct (Hall k v Hin) as (Hnot & n & names' & st & Hls' & Hn & Hm & Hk & Hst & _).
    assert (names' = names) by congruence. subst names'.
    split; [exact Hnot|]. split; [unfold os_path_exists; now rewrite Hst|].
    exists n. auto. }
  assert (Hkeys1 : forall k, In k (keys (files s1)) <->
            In k (keys (filter (present fs) (files s))) \/ In k C).
  { intros k. rewrite Hf, keys_app, keys_refreshed, in_app_iff. reflexivity. }
  assert (Hlisted : forall n, In n names -> matched (file_pattern self) n ->
            In (os_path_join (dir_path self) n) (keys (files s1))).
  { intros n Hn [e He]. destruct (Hnames n Hn) as (m & Hm & Hc).
    apply dict_contains_In. apply Hc.
    assert (m = Some e) by congruence. now subst m. }
  exists names.
  exists (map file_deleted_callback A ++ map file_modified_callback B
          ++ map file_created_callback C).
  split; [exact Hls|]. split; [exact Ht|]. split; [|split; [|split; [|split]]].
  - rewrite !map_app, path_of_deleted, path_of_modified, path_of_created.
    apply NoDup_app.
    + apply (dict_wf_filter (absent fs) _ Hwf).
    + apply NoDup_app.
      * apply (dict_wf_filter (changed fs)), dict_wf_filter, Hwf.
      * exact Hnd.
      * intros k Hk Hk'. apply HB in Hk. apply HC in Hk'. tauto.
    + intros k Hk Hk'. apply In_keys_absent in Hk. destruct Hk as [_ Hex].
      apply in_app_or in Hk'. destruct Hk' as [Hk'|Hk'].
      * apply HB, In_keys_present in Hk'. destruct Hk'; congruence.
      * apply HC in Hk'. destruct Hk' as (_ & Hex' & _). congruence.
  - intros k. split.
    + intros H. apply Hkeys1 in H. destruct H as [H|H].
      * left. now apply In_keys_present.
      * right. apply HC in H. tauto.
    + intros [H|[n (Hn & Hm & ->)]].
      * apply Hkeys1. left. now apply In_keys_present.
      * now apply Hlisted.
  - intros k. rewrite !in_app_iff, !in_map_iff. split.
    + intros [[k' [[= ->] Hk]]|[[k' [Heq _]]|[k' [Heq _]]]];
        [|discriminate|discriminate].
      now apply In_keys_absent.
    + intros H. left. exists k. split; [reflexivity|]. now apply In_keys_absent.
  - intros k. rewrite !in_app_iff, !in_map_iff. split.
    + intros [[k' [Heq _]]|[[k' [[= ->] Hk]]|[k' [Heq _]]]];
        [discriminate| |discriminate].
      unfold B in Hk. apply In_keys_filter in Hk. destruct Hk as [v [Hin Hch]].
      apply filter_In in Hin. destruct Hin as [Hin _].
      apply changed_iff in Hch. destruct Hch as [st [Hst Hne]].
      exists v, st. split; [now apply dict_get_entry|]. auto.
    + intros (v & st & Hget & Hst & Hne). right. left.
      exists k. split; [reflexivity|].
      unfold B. apply In_keys_filter. exists v. split.
      * apply filter_In. split; [now apply dict_get_entry|].
        unfold present, os_path_exists. cbn [fst]. now rewrite Hst.
      * apply changed_iff. eauto.
  - intros k. rewrite !in_app_iff, !in_map_iff. split.
    + intros [[k' [Heq _]]|[[k' [Heq _]]|[k' [[= ->] Hk]]]];
        [discriminate|discriminate|].
      apply HC in Hk. destruct Hk as (Hnot & Hex & Hn).
      split; [|exact Hn]. intros Hin. apply Hnot.
      apply In_keys_present. auto.
    + intros (Hnot & n & Hn & Hm & ->). right. right.
      exists (os_path_join (dir_path self) n). split; [reflexivity|].
      pose proof (Hlisted n Hn Hm) as H1. apply Hkeys1 in H1.
      destruct H1 as [H1|H1]; [|exact H1].
      apply In_keys_present in H1. tauto.
Qed.

End CycleReport.

Section CycleTheorems.
Context `{RE : ReModule}.

(** X4: after a cycle that ran to completion on one filesystem, from a
    well-formed snapshot, the snapshot is again well formed, every entry
    holds the timestamp its path has on that filesystem, and its keys
    are exactly the old keys whose path exists together with the joined
    paths of the listed names that the pattern matches. *)
Theorem cycle_reconciles (fs : filesystem) (self : PyFileWatcher)
  (s s1 : store) :
  dict_wf (files s) ->
  cycle fs self s = (Ok tt, s1) ->
  dict_wf (files s1) /\
  (forall k v, dict_get k (files s1) = Some v ->
     exists st, os_stat fs k = Some st /\ st_mtime st = v) /\
  exists names,
    os_listdir fs (dir_path self) = Some names /\
    forall k, In k (keys (files s1)) <->
      (In k (keys (files s)) /\ os_path_exists fs k = true) \/
      (exists n, In n names /\ matched (file_pattern self) n /\
                 k = os_path_join (dir_path self) n).
Proof.
  intros Hwf Hrun.
  destruct (cycle_settles fs self s s1 Hwf Hrun) as (Hwf1 & Hup1 & _).
  destruct (cycle_report fs self s s1 Hwf Hrun)
    as (names & started & Hls & _ & _ & Hkeys & _).
  split; [exact Hwf1|]. split; [exact Hup1|].
  exists names. split; [exact Hls | exact Hkeys].
Qed.



(** X7: a path of the snapshot that is missing in one completed cycle and
    is back, listed under a matching name, in the next completed cycle is
    reported deleted by the first and created by the second; neither
    cycle starts its modified-callback, and each cycle starts one thread
    for it at most.  Between the two cycles the path is not a key. *)
Theorem delete_then_recreate (fs1 fs2 : filesystem) (self : PyFileWatcher)
  (s s1 s2 : store) (names : list string) (n : string) :
  dict_wf (files s) ->
  In (os_path_join (dir_path self) n) (keys (files s)) ->
  os_path_exists fs1 (os_path_join (dir_path self) n) = false ->
  cycle fs1 self s = (Ok tt, s1) ->
  os_listdir fs2 (dir_path self) = Some names ->
  In n names ->
  matched (file_pattern self) n ->
  cycle fs2 self s1 = (Ok tt, s2) ->
  exists started1 started2,
    threads s1 = threads s ++ started1 /\
    threads s2 = threads s1 ++ started2 /\
    NoDup (map path_of started1) /\
    NoDup (map path_of started2) /\
    In (file_deleted_callback (os_path_join (dir_path self) n)) started1 /\
    In (file_created_callback (os_path_join (dir_path self) n)) started2 /\
    ~ In (file_modified_callback (os_path_join (dir_path self) n)) started1 /\
    ~ In (file_modified_callback (os_path_join (dir_path self) n)) started2 /\
    ~ In (os_path_join (dir_path self) n) (keys (files s1)) /\
    In (os_path_join (dir_path self) n) (keys (files s2)).
Proof.
  intros Hwf Hk Hgone Hrun1 Hls2 Hn Hm Hrun2.
  set (k := os_path_join (dir_path self) n) in *.
  destruct (cycle_settles fs1 self s s1 Hwf Hrun1) as (Hwf1 & Hup1 & _).
  destruct (cycle_report fs1 self s s1 Hwf Hrun1)
    as (names1 & started1 & _ & Ht1 & Hnd1 & _ & Hd1 & Hm1 & _).
  destruct (cycle_report fs2 self s1 s2 Hwf1 Hrun2)
    as (names2 & started2 & Hls2' & Ht2 & Hnd2 & Hkeys2 & _ & Hm2 & Hc2).
  assert (names2 = names) by congruence. subst names2.
  assert (Hnot1 : ~ In k (keys (files s1))).
  { intros Hin. apply dict_get_In in Hin.
    destruct (dict_get k (files s1)) as [v|] eqn:Hget; [|congruence].
    destruct (Hup1 k v Hget) as [st [Hst _]].
    unfold os_path_exists in Hgone. now rewrite Hst in Hgone. }
  exists started1, started2.
  split; [exact Ht1|]. split; [exact Ht2|].
  split; [exact Hnd1|]. split; [exact Hnd2|].
  split; [apply Hd1; auto|].
  split; [apply Hc2; split; [exact Hnot1 | exists n; auto]|].
  split.
  { intros H. apply Hm1 in H. destruct H as (v & st & _ & Hst & _).
    unfold os_path_exists in Hgone. now rewrite Hst in Hgone. }
  split.
  { intros H. apply Hm2 in H. destruct H as (v & st & Hget & _).
    apply Hnot1. apply dict_get_In. congruence. }
  split; [exact Hnot1|].
  apply Hkeys2. right. exists n. auto.
Qed.

(** X8: when the watched directory can no longer be listed and none of
    the paths of a well-formed snapshot exists any more, the cycle starts
    the deleted-callback of every key, in snapshot order, empties the
    snapshot, and then ends with [OSError] for the directory, raised by
    the creation step. *)
Theorem cycle_on_removed_directory (fs : filesystem) (self : PyFileWatcher)
  (s : store) :
  dict_wf (files s) ->
  os_listdir fs (dir_path self) = None ->
  (forall k, In k (keys (files s)) -> os_path_exists fs k = false) ->
  cycle fs self s
  = (Raise (OSError (dir_path self)),
     {| files := [];
        threads := threads s ++ map file_deleted_callback (keys (files s)) |}).
Proof.
  intros Hwf Hls Hgone. unfold cycle.
  rewrite (bind_ok _ _ _ _ _ (check_for_deleted_files_spec fs s Hwf)).
  rewrite filter_none, filter_all.
  - unfold bind, check_for_modified_files, items, check_for_new_files, listdir.
    cbn [files for_each]. unfold ret at 1. unfold bind. rewrite Hls. reflexivity.
  - intros [k v] Hin. unfold absent. cbn [fst]. rewrite Hgone; [reflexivity|].
    change k with (fst (k, v)). now apply in_map.
  - intros [k v] Hin. unfold present. cbn [fst]. apply Hgone.
    change k with (fst (k, v)). now apply in_map.
Qed.

End CycleTheorems.

(** * Further properties of [watch] and [get_files] *)



Section WatchProperties.
Context `{RE : ReModule}.


Lemma re_match_compiled (pattern : string) (c : Pattern) (n : string) :
  re_compile pattern = Some c ->
  re_match pattern n = Ok (Pattern_match c n).
Proof. unfold re_match. now intros ->. Qed.








(** With the flag set and the thread not past the test of the flag, no
    thread is started, nothing is printed, and only lines 47 and 48 run. *)
Lemma run_quiet (ins : list input) (m : machine) :
  stop_watching (self m) = true ->
  line (at_ m) <= 48 ->
  threads (mem (run ins m)) = threads (mem m) /\
  printed (run ins m) = printed m /\
  Forall (fun p => line p = 47 \/ line p = 48) (executed ins m).
Proof.
  revert m. induction ins as [|i t IH]; intros m Hflag Hline;
    [repeat split; constructor|].
  assert (Hstep : stop_watching (self (next m)) = true /\
                  line (at_ (next m)) <= 48 /\
                  threads (mem (next m)) = threads (mem m) /\
                  printed (next m) = printed m).
  { rewrite next_self. split; [exact Hflag|]. unfold next.
    destruct (at_ m) eqn:Hpc; cbn [line] in Hline; try lia;
      try (rewrite Hpc; cbn; repeat split; lia).
    - destruct (get_files _ _); cbn; repeat split; lia.
    - rewrite Hflag. cbn. repeat split; lia. }
  destruct i; cbn [run executed react].
  - destruct Hstep as (H1 & H2 & H3 & H4).
    destruct (IH (next m) H1 H2) as (I1 & I2 & I3).
    split; [congruence|]. split; [congruence|].
    apply Forall_app. split; [|exact I3].
    destruct (ended (at_ m)) eqn:Hend; [constructor|].
    constructor; [|constructor].
    destruct (at_ m); cbn in *; try discriminate; try lia; auto.
  - apply (IH (react Stop m)); [reflexivity | exact Hline].
  - apply (IH (react (Fs fs) m)); [exact Hflag | exact Hline].
Qed.

(** X10: [stop()] cannot be undone by calling [watch()] again: on an
    object whose flag is set, [watch()] runs line 47 and line 48 only,
    so no sleep, no print and no detection step; it starts no thread and
    has ended after two statements. *)
Theorem stopped_watcher_only_scans (w : PyFileWatcher) (fs : filesystem)
  (ins : list input) :
  threads (mem (watch (stop w) fs ins)) = [] /\
  printed (watch (stop w) fs ins) = 0 /\
  Forall (fun p => line p = 47 \/ line p = 48)
    (executed ins (boot (stop w) fs)) /\
  (2 <= steps ins -> ended (at_ (watch (stop w) fs ins)) = true).
Proof.
  unfold watch.
  destruct (run_quiet ins (boot (stop w) fs)) as (H1 & H2 & H3);
    [reflexivity | cbn; lia |].
  split; [exact H1|]. split; [exact H2|]. split; [exact H3|].
  intros Htwo. apply remaining_ended.
  pose proof (run_remaining ins (boot (stop w) fs) eq_refl) as Hrem.
  cbn [boot at_ remaining] in Hrem. lia.
Qed.

(** X11: as long as nobody calls [stop()], [watch()] does not return:
    it is still running or has ended with an exception. *)
Theorem watch_returns_only_after_stop (w : PyFileWatcher) (fs : filesystem)
  (ins : list input) :
  stop_watching w = false ->
  (forall i, In i ins -> i <> Stop) ->
  at_ (watch w fs ins) <> returned.
Proof.
  unfold watch. intros Hflag Hins.
  assert (H : forall m, stop_watching (self m) = false ->
                        at_ m <> returned ->
                        at_ (run ins m) <> returned).
  { induction ins as [|i t IH]; intros m Hf Hat; [exact Hat|].
    cbn [run]. destruct i.
    - apply IH.
      + intros j Hj. apply Hins. now right.
      + cbn [react]. now rewrite next_self.
      + cbn [react]. unfold next.
        destruct (at_ m) eqn:Hpc; try (cbn; discriminate).
        * destruct (get_files _ _); cbn; discriminate.
        * rewrite Hf. cbn. discriminate.
        * rewrite call_at. destruct (fst _); discriminate.
        * rewrite call_at. destruct (fst _); discriminate.
        * rewrite call_at. destruct (fst _); discriminate.
        * congruence.
        * rewrite Hpc. discriminate.
    - exfalso. apply (Hins Stop); [now left | reflexivity].
    - apply IH; [intros j Hj; apply Hins; now right | exact Hf | exact Hat]. }
  apply H; [exact Hflag | cbn; discriminate].
Qed.

End WatchProperties.

Section OnlyMatching.
Context `{RE : ReModule}.









End OnlyMatching.

Section InitialScan.
Context `{RE : ReModule}.

(** The loop of [get_files] in closed form, over names that are distinct
    and not yet keys. *)
Lemma get_files_loop (fs : filesystem) (self : PyFileWatcher) (c : Pattern)
  (l : list string) (pre : dict) (t : list thread) :
  re_compile (file_pattern self) = Some c ->
  NoDup l ->
  (forall n, In n l -> ~ In n (keys pre)) ->
  (forall n, In n l -> truthy (Pattern_match c n) = true ->
     os_stat fs (os_path_join (dir_path self) n) <> None) ->
  for_each l (get_files_body fs self) {| files := pre; threads := t |}
  = (Ok tt,
     {| files := pre ++ map (fun n => (n, current_mtime fs
                                            (os_path_join (dir_path self) n) 0%Z))
                          (filter (fun n => truthy (Pattern_match c n)) l);
        threads := t |}).
Proof.
  intros Hc. revert pre. induction l as [|n l IH]; intros pre Hnd Hfresh Hread.
  - cbn. now rewrite app_nil_r.
  - inversion Hnd as [|? ? Hnin Hnd']; subst.
    cbn [for_each filter]. unfold bind at 1.
    rewrite get_files_body_eq, (re_match_compiled _ c) by assumption.
    destruct (truthy (Pattern_match c n)) eqn:Hm.
    + destruct (os_stat fs (os_path_join (dir_path self) n)) as [st|] eqn:Hst;
        [|exfalso; apply (Hread n); auto; now left].
      cbn [files threads].
      rewrite keys_set_new by (apply Hfresh; now left).
      rewrite IH.
      * cbn [map]. unfold current_mtime at 2. rewrite Hst.
        now rewrite <- app_assoc.
      * exact Hnd'.
      * intros x Hx. rewrite keys_app, in_app_iff. cbn.
        intros [H|[H|[]]]; [apply (Hfresh x); auto; now right | congruence].
      * intros x Hx. apply Hread. now right.
    + apply IH; [exact Hnd' | |].
      * intros x Hx. apply Hfresh. now right.
      * intros x Hx. apply Hread. now right.
Qed.

Lemma dict_get_tabulate (h : string -> Z) (n : string) (l : list string) :
  In n l -> dict_get n (map (fun x => (x, h x)) l) = Some (h n).
Proof.
  induction l as [|x l IH]; simpl; [tauto|].
  destruct (String.eqb_spec n x) as [->|Hne]; [reflexivity|].
  intros [H|H]; [congruence | auto].
Qed.

(** X13: when the directory can be listed, its names are distinct, the
    pattern compiles and every matching entry can be read, the initial
    scan returns a dictionary whose keys are the listed names that the
    pattern matches, in listing order, each with the [st_mtime] of its
    joined path. *)
Theorem get_files_lists_matching_names (fs : filesystem)
  (self : PyFileWatcher) (names : list string) (c : Pattern) :
  os_listdir fs (dir_path self) = Some names ->
  NoDup names ->
  re_compile (file_pattern self) = Some c ->
  (forall n, In n names -> truthy (Pattern_match c n) = true ->
     os_stat fs (os_path_join (dir_path self) n) <> None) ->
  exists d,
    get_files fs self = Ok d /\
    keys d = filter (fun n => truthy (Pattern_match c n)) names /\
    forall n, In n (keys d) ->
      exists st,
        os_stat fs (os_path_join (dir_path self) n) = Some st /\
        dict_get n d = Some (st_mtime st).
Proof.
  intros Hls Hnd Hc Hread.
  rewrite get_files_eq, Hls.
  rewrite (get_files_loop fs self c names [] [] Hc Hnd);
    [|intros n _ [] | exact Hread].
  cbn [app files]. eexists. split; [reflexivity|].
  assert (Hkeys : keys (map (fun n => (n, current_mtime fs
                                (os_path_join (dir_path self) n) 0%Z))
                          (filter (fun n => truthy (Pattern_match c n)) names))
                  = filter (fun n => truthy (Pattern_match c n)) names).
  { unfold keys. rewrite map_map. cbn. apply map_id. }
  split; [exact Hkeys|].
  intros n Hn. rewrite Hkeys in Hn.
  rewrite (dict_get_tabulate
             (fun x => current_mtime fs (os_path_join (dir_path self) x) 0%Z))
    by exact Hn.
  apply filter_In in Hn. destruct Hn as [Hin Hm].
  unfold current_mtime.
  destruct (os_stat fs (os_path_join (dir_path self) n)) as [st|] eqn:Hst.
  - eauto.
  - exfalso. now apply (Hread n Hin Hm).
Qed.

End InitialScan.

(** ** The further properties on the scenarios *)

Section EvaluatedFurther.
Import Scenario.

Lemma check_for_deleted_files_reports_missing_witness :
  let s := {| files := [("/tmp/w/data_1.txt", 5%Z); ("/tmp/w/other.log", 6%Z)];
              threads := [] |} in
  exists s' started,
    check_for_deleted_files tmp_w_removed s = (Ok tt, s') /\
    threads s' = threads s ++ started /\
    NoDup started /\
    (forall t, In t started <->
       exists k, t = file_deleted_callback k /\ In k (keys (files s)) /\
                 os_path_exists tmp_w_removed k = false) /\
    (forall k, dict_get k (files s')
               = if os_path_exists tmp_w_removed k
                 then dict_get k (files s) else None).
Proof.
  intros s. apply (check_for_deleted_files_reports_missing tmp_w_removed s).
  apply distinct_NoDup. reflexivity.
Defined.

Lemma cycle_reconciles_witness :
  let w := watcher "/tmp/w" ".*" in
  let s := {| files := [("/tmp/w/data_1.txt", 5%Z)]; threads := [] |} in
  let s1 :=
    {| files := [("/tmp/w/data_1.txt", 9%Z); ("/tmp/w/other.log", 6%Z)];
       threads := [file_modified_callback "/tmp/w/data_1.txt";
                   file_created_callback "/tmp/w/other.log"] |} in
  dict_wf (files s1) /\
  (forall k v, dict_get k (files s1) = Some v ->
     exists st, os_stat tmp_w_touched k = Some st /\ st_mtime st = v) /\
  exists names,
    os_listdir tmp_w_touched (dir_path w) = Some names /\
    forall k, In k (keys (files s1)) <->
      (In k (keys (files s)) /\ os_path_exists tmp_w_touched k = true) \/
      (exists n, In n names /\ matched (file_pattern w) n /\
                 k = os_path_join (dir_path w) n).
Proof.
  intros w s s1. apply (cycle_reconciles tmp_w_touched w s s1).
  - apply distinct_NoDup. reflexivity.
  - reflexivity.
Defined.



Lemma delete_then_recreate_witness :
  let w := watcher "/tmp/w" ".*" in
  let k := "/tmp/w/data_1.txt" in
  let s := {| files := [(k, 5%Z); ("/tmp/w/other.log", 6%Z)]; threads := [] |} in
  let s1 := {| files := [("/tmp/w/other.log", 6%Z)];
               threads := [file_deleted_callback k] |} in
  let s2 := {| files := [("/tmp/w/other.log", 6%Z); (k, 5%Z)];
               threads := [file_deleted_callback k; file_created_callback k] |} in
  exists started1 started2,
    threads s1 = threads s ++ started1 /\
    threads s2 = threads s1 ++ started2 /\
    NoDup (map path_of started1) /\
    NoDup (map path_of started2) /\
    In (file_deleted_callback k) started1 /\
    In (file_created_callback k) started2 /\
    ~ In (file_modified_callback k) started1 /\
    ~ In (file_modified_callback k) started2 /\
    ~ In k (keys (files s1)) /\
    In k (keys (files s2)).
Proof.
  intros w k s s1 s2.
  apply (delete_then_recreate tmp_w_removed tmp_w w s s1 s2
           ["data_1.txt"; "other.log"] "data_1.txt").
  - apply distinct_NoDup. reflexivity.
  - vm_compute. left. reflexivity.
  - reflexivity.
  - reflexivity.
  - reflexivity.
  - vm_compute. left. reflexivity.
  - exists 10. reflexivity.
  - reflexivity.
Defined.

Lemma cycle_on_removed_directory_witness :
  let s := {| files := [("/tmp/w/data_1.txt", 5%Z); ("/tmp/w/other.log", 6%Z)];
              threads := [] |} in
  cycle tmp_w_gone (watcher "/tmp/w" ".*") s
  = (Raise (OSError "/tmp/w"),
     {| files := [];
        threads := [file_deleted_callback "/tmp/w/data_1.txt";
                    file_deleted_callback "/tmp/w/other.log"] |}).
Proof.
  intros s.
  apply (cycle_on_removed_directory tmp_w_gone (watcher "/tmp/w" ".*") s).
  - apply distinct_NoDup. reflexivity.
  - reflexivity.
  - intros k _. reflexivity.
Defined.


Lemma watch_returns_only_after_stop_witness :
  at_ (watch (watcher "/tmp/w" ".*") tmp_w (polls 2 ++ [Fs tmp_w_touched; Step]))
  <> returned.
Proof.
  apply (watch_returns_only_after_stop (watcher "/tmp/w" ".*") tmp_w).
  - reflexivity.
  - intros i Hi. vm_compute in Hi.
    repeat (destruct Hi as [<-|Hi]; [discriminate|]). destruct Hi.
Defined.

Lemma get_files_lists_matching_names_witness :
  exists d,
    get_files tmp_w (watcher "/tmp/w" "data") = Ok d /\
    keys d = ["data_1.txt"] /\
    dict_get "data_1.txt" d = Some 5%Z.
Proof.
  assert (Hc : exists c,
             re_compile "data" = Some c /\
             filter (fun n => truthy (Pattern_match c n))
               ["data_1.txt"; "other.log"] = ["data_1.txt"]).
  { eexists. split; vm_compute; reflexivity. }
  destruct Hc as (c & Hc & Hfilter).
  destruct (get_files_lists_matching_names tmp_w (watcher "/tmp/w" "data")
              ["data_1.txt"; "other.log"] c) as (d & Hd & Hkeys & Hvals).
  - reflexivity.
  - apply distinct_NoDup. reflexivity.
  - exact Hc.
  - intros n Hn _. simpl in Hn.
    destruct Hn as [<-|[<-|[]]]; vm_compute; discriminate.
  - exists d. split; [exact Hd|]. rewrite Hkeys, Hfilter.
    split; [reflexivity|].
    destruct (Hvals "data_1.txt") as (st & Hst & Hget).
    { rewrite Hkeys, Hfilter. now left. }
    rewrite Hget. vm_compute in Hst. injection Hst as <-. reflexivity.
Defined.

End EvaluatedFurther.
